(** * JettOX diagnostics collector: collection-and-aggregation pipeline

    A shallow embedding of [main.py]: the command runner, the output
    parsers, the five domain collectors, the aggregation step and the
    run log, followed by the properties of the pipeline.

    Text is modelled with [string]; one [ascii] stands for one character
    (a code point below 256).  A Python [float] is a binary64 number of
    the kernel ([PrimFloat.float]), with its own rounding arithmetic.
    Everything the program asks of the machine (processes, files, clock,
    the optional metrics library) is answered by a [Host] record of
    oracles; what the program leaves behind (log lines, written files)
    is kept in a [World] state threaded through a state-and-exception
    monad. *)

From Stdlib Require Import List String Ascii ZArith Bool Lia.
From Stdlib Require PrimFloat FloatOps SpecFloat.
Import ListNotations.
Local Open Scope string_scope.

(* ================================================================== *)
(** ** Python text operations *)

Module PyStr.

Definition LF : ascii := ascii_of_nat 10.
Definition CR : ascii := ascii_of_nat 13.

Definition code_in (c : ascii) (codes : list nat) : bool :=
  existsb (Nat.eqb (nat_of_ascii c)) codes.

(** Line boundaries of [str.splitlines]: \n \r \v \f \x1c \x1d \x1e \x85. *)
Definition is_linebreak (c : ascii) : bool :=
  code_in c [10; 13; 11; 12; 28; 29; 30; 133]%nat.

(** Whitespace of [str.strip] and of [str.split] without a separator. *)
Definition is_space (c : ascii) : bool :=
  code_in c [9; 10; 11; 12; 13; 28; 29; 30; 31; 32; 133; 160]%nat.

Definition is_empty (s : string) : bool :=
  match s with EmptyString => true | String _ _ => false end.

Fixpoint rev_append_str (acc s : string) : string :=
  match acc with
  | EmptyString => s
  | String c acc' => rev_append_str acc' (String c s)
  end.

(** [cur] holds the characters of the current line, last one first. *)
Fixpoint splitlines_from (cur : string) (s : string) : list string :=
  match s with
  | EmptyString =>
      if is_empty cur then [] else [rev_append_str cur EmptyString]
  | String c rest =>
      if is_linebreak c then
        rev_append_str cur EmptyString ::
        (if Ascii.eqb c CR then
           match rest with
           | String d rest' =>
               if Ascii.eqb d LF then splitlines_from EmptyString rest'
               else splitlines_from EmptyString rest
           | EmptyString => splitlines_from EmptyString rest
           end
         else splitlines_from EmptyString rest)
      else splitlines_from (String c cur) rest
  end.

(** [text.splitlines()] *)
Definition splitlines (s : string) : list string :=
  splitlines_from EmptyString s.

Fixpoint startswith (p s : string) : bool :=
  match p, s with
  | EmptyString, _ => true
  | String a p', String b s' => Ascii.eqb a b && startswith p' s'
  | String _ _, EmptyString => false
  end.

(** [sub in s] *)
Fixpoint contains (sub s : string) : bool :=
  startswith sub s ||
  match s with
  | EmptyString => false
  | String _ s' => contains sub s'
  end.

(** Occurrences are counted left to right without overlap: after a
    match the next [skip] characters belong to it. *)
Fixpoint count_from (sub : string) (skip : nat) (s : string) : nat :=
  match s with
  | EmptyString => 0
  | String _ s' =>
      match skip with
      | S k => count_from sub k s'
      | O =>
          if startswith sub s
          then S (count_from sub (String.length sub - 1) s')
          else count_from sub 0 s'
      end
  end.

(** [s.count(sub)]; for the empty [sub] Python answers [len(s) + 1]. *)
Definition count (sub s : string) : nat :=
  if is_empty sub then S (String.length s) else count_from sub 0 s.

Fixpoint drop (n : nat) (s : string) : string :=
  match n, s with
  | O, _ => s
  | S k, String _ s' => drop k s'
  | S _, EmptyString => EmptyString
  end.

(** The text before and after the first occurrence of [sep], if any. *)
Fixpoint partition (sep s : string) : option (string * string) :=
  if startswith sep s then Some (EmptyString, drop (String.length sep) s)
  else
    match s with
    | EmptyString => None
    | String c s' =>
        match partition sep s' with
        | Some (a, b) => Some (String c a, b)
        | None => None
        end
    end.

(** [s.split(sep, 1)] for a non-empty [sep]. *)
Definition split1 (sep s : string) : list string :=
  match partition sep s with
  | Some (a, b) => [a; b]
  | None => [s]
  end.

(** [s.split(sep)] for a one-character [sep]. *)
Fixpoint split_char_from (sep : ascii) (cur : string) (s : string)
  : list string :=
  match s with
  | EmptyString => [rev_append_str cur EmptyString]
  | String c s' =>
      if Ascii.eqb c sep
      then rev_append_str cur EmptyString :: split_char_from sep EmptyString s'
      else split_char_from sep (String c cur) s'
  end.

Definition split_char (sep : ascii) (s : string) : list string :=
  split_char_from sep EmptyString s.

(** [s.split()]: maximal runs of non-whitespace characters. *)
Fixpoint split_ws_from (cur : string) (s : string) : list string :=
  match s with
  | EmptyString =>
      if is_empty cur then [] else [rev_append_str cur EmptyString]
  | String c s' =>
      if is_space c then
        (if is_empty cur then split_ws_from EmptyString s'
         else rev_append_str cur EmptyString :: split_ws_from EmptyString s')
      else split_ws_from (String c cur) s'
  end.

Definition split_ws (s : string) : list string :=
  split_ws_from EmptyString s.

Fixpoint lstrip (s : string) : string :=
  match s with
  | EmptyString => EmptyString
  | String c s' => if is_space c then lstrip s' else s
  end.

Fixpoint rstrip (s : string) : string :=
  match s with
  | EmptyString => EmptyString
  | String c s' =>
      let r := rstrip s' in
      if is_empty r && is_space c then EmptyString else String c r
  end.

(** [s.strip()] *)
Definition strip (s : string) : string := rstrip (lstrip s).

(** [s.endswith("\n")] *)
Fixpoint ends_with_newline (s : string) : bool :=
  match s with
  | EmptyString => false
  | String c EmptyString => Ascii.eqb c LF
  | String _ s' => ends_with_newline s'
  end.

(** ["\n".join(lines)] *)
Fixpoint join (sep : string) (l : list string) : string :=
  match l with
  | [] => EmptyString
  | [x] => x
  | x :: rest => x ++ sep ++ join sep rest
  end.

Definition nl : string := String LF EmptyString.

(** Decimal rendering of integers, as [str(n)] and [%s] give it. *)
Definition digit (n : nat) : ascii := ascii_of_nat (48 + n).

Fixpoint digits_of (fuel : nat) (n : nat) (acc : string) : string :=
  match fuel with
  | O => acc
  | S f =>
      let acc' := String (digit (n mod 10)) acc in
      if (n / 10 =? 0)%nat then acc' else digits_of f (n / 10) acc'
  end.

Definition str_of_nat (n : nat) : string := digits_of (S n) n EmptyString.

Definition str_of_Z (z : Z) : string :=
  match z with
  | Zneg p => "-" ++ str_of_nat (Pos.to_nat p)
  | _ => str_of_nat (Z.to_nat z)
  end.

End PyStr.


(** [xs.append(x)] *)
Definition push {A : Type} (xs : list A) (x : A) : list A := (xs ++ [x])%list.

(* ================================================================== *)
(** ** Python values and dictionaries *)

(** The values a summary holds.  A [dict] keeps its keys in insertion
    order, which is also the order [json.dump] writes them in. *)
#[warnings="-register-all"]
Inductive pyval : Type :=
| VNone
| VBool (b : bool)
| VInt (z : Z)
| VFloat (x : PrimFloat.float)
| VStr (s : string)
| VList (items : list pyval)
| VDict (entries : list (string * pyval)).

Definition dict : Type := list (string * pyval).

(** [d[k] = v]: an existing key keeps its place. *)
Fixpoint dict_set {V : Type} (d : list (string * V)) (k : string) (v : V)
  : list (string * V) :=
  match d with
  | [] => [(k, v)]
  | (k', v') :: d' =>
      if String.eqb k' k then (k', v) :: d' else (k', v') :: dict_set d' k v
  end.

(** [d.get(k)] *)
Fixpoint dict_get {V : Type} (d : list (string * V)) (k : string) : option V :=
  match d with
  | [] => None
  | (k', v') :: d' => if String.eqb k' k then Some v' else dict_get d' k
  end.

(** [k in d] *)
Definition dict_has {V : Type} (d : list (string * V)) (k : string) : bool :=
  match dict_get d k with Some _ => true | None => false end.

(** [dict(pairs)]: later pairs overwrite earlier ones. *)
Definition dict_of_pairs {V : Type} (pairs : list (string * V))
  : list (string * V) :=
  fold_left (fun d kv => dict_set d (fst kv) (snd kv)) pairs [].

(** [dict(zip(header, row))] *)
Definition dict_zip (header row : list string) : dict :=
  dict_of_pairs (combine header (map VStr row)).

(** [len(s)] as a Python integer. *)
Definition py_len (s : string) : pyval := VInt (Z.of_nat (String.length s)).

(** The binary64 number nearest to the integer [z], ties to even;
    an integer beyond the largest finite one gives an infinity. *)
Definition nearest_float (z : Z) : PrimFloat.float :=
  FloatOps.SF2Prim
    (SpecFloat.binary_normalize FloatOps.prec FloatOps.emax z 0 false).

(** The conversion of an [int] operand to [float]; nothing where
    Python raises [OverflowError]. *)
Definition float_of_int (z : Z) : option PrimFloat.float :=
  let x := nearest_float z in
  if PrimFloat.is_infinity x then None else Some x.

(** Numbers under [+]: an [int] stays exact, a [float] absorbs an [int];
    [bool] counts as an [int]. *)
Inductive number : Type :=
| NInt (z : Z)
| NFloat (x : PrimFloat.float).

Definition as_number (v : pyval) : option number :=
  match v with
  | VInt z => Some (NInt z)
  | VBool b => Some (NInt (if b then 1 else 0))
  | VFloat x => Some (NFloat x)
  | _ => None
  end.

(** What [a + b] comes to. *)
Inductive add_result : Type :=
| Added (v : pyval)
| Unsupported     (* TypeError: unsupported operand type(s) for + *)
| IntTooLarge.    (* OverflowError: int too large to convert to float *)

Definition float_add (x : option PrimFloat.float) (y : option PrimFloat.float)
  : add_result :=
  match x, y with
  | Some x, Some y => Added (VFloat (PrimFloat.add x y))
  | _, _ => IntTooLarge
  end.

Definition number_add (a b : number) : add_result :=
  match a, b with
  | NInt x, NInt y => Added (VInt (x + y))
  | NInt x, NFloat y => float_add (float_of_int x) (Some y)
  | NFloat x, NInt y => float_add (Some x) (float_of_int y)
  | NFloat x, NFloat y => float_add (Some x) (Some y)
  end.

(** [a + b] *)
Definition py_add (a b : pyval) : add_result :=
  match as_number a, as_number b with
  | Some x, Some y => number_add x y
  | _, _ => Unsupported
  end.

(** [f"{x:.2f}"]: two decimals, ties to even. *)
Definition round_half_even (num den : Z) : Z :=
  let q := (num / den)%Z in
  let r := (num mod den)%Z in
  match (2 * r ?= den)%Z with
  | Lt => q
  | Gt => (q + 1)%Z
  | Eq => if Z.even q then q else (q + 1)%Z
  end.

Definition format_2f (x : PrimFloat.float) : string :=
  match FloatOps.Prim2SF x with
  | SpecFloat.S754_nan => "nan"
  | SpecFloat.S754_infinity s => if s then "-inf" else "inf"
  | SpecFloat.S754_zero s => (if s then "-" else "") ++ "0.00"
  | SpecFloat.S754_finite s m e =>
      (* the value is m * 2^e *)
      let num := (Zpos m * 100 * 2 ^ Z.max e 0)%Z in
      let den := (2 ^ Z.max (- e) 0)%Z in
      let h := round_half_even num den in
      let cents := (h mod 100)%Z in
      (if s then "-" else "") ++ PyStr.str_of_Z (h / 100) ++ "." ++
      (if (cents <? 10)%Z then "0" else "") ++ PyStr.str_of_Z cents
  end.

(* ================================================================== *)
(** ** The CSV reader

    [csv.reader] with its default dialect (comma, double quote, doubled
    quotes inside quoted fields, no escape character, not strict), fed
    one line at a time.  A field longer than the field limit is the
    error the reader raises; so is a line break left inside a line,
    which the lines of [splitlines] never have. *)

Module Csv.

Inductive state : Type :=
| START_RECORD
| START_FIELD
| IN_FIELD
| IN_QUOTED_FIELD
| QUOTE_IN_QUOTED_FIELD
| EAT_CRNL.

Definition state_eqb (a b : state) : bool :=
  match a, b with
  | START_RECORD, START_RECORD | START_FIELD, START_FIELD
  | IN_FIELD, IN_FIELD | IN_QUOTED_FIELD, IN_QUOTED_FIELD
  | QUOTE_IN_QUOTED_FIELD, QUOTE_IN_QUOTED_FIELD | EAT_CRNL, EAT_CRNL => true
  | _, _ => false
  end.

Definition delimiter : ascii := ","%char.
Definition quotechar : ascii := ascii_of_nat 34.
Definition field_limit : N := 131072.

(** [field] holds the characters of the current field, last one first. *)
Record reader : Type := mk_reader {
  st : state;
  fields : list string;
  field : string;
  field_len : N
}.

Definition parse_reset : reader :=
  {| st := START_RECORD; fields := []; field := EmptyString; field_len := 0 |}.

Definition set_state (r : reader) (s : state) : reader :=
  {| st := s; fields := fields r; field := field r; field_len := field_len r |}.

Definition parse_save_field (r : reader) : reader :=
  {| st := st r;
     fields := push (fields r) (PyStr.rev_append_str (field r) EmptyString);
     field := EmptyString;
     field_len := 0 |}.

Definition parse_add_char (r : reader) (c : ascii) : option reader :=
  if (field_limit <=? field_len r)%N then None
  else Some {| st := st r; fields := fields r;
               field := String c (field r);
               field_len := N.succ (field_len r) |}.

Definition is_crlf (c : ascii) : bool :=
  Ascii.eqb c PyStr.LF || Ascii.eqb c PyStr.CR.

Definition start_field (r : reader) (c : option ascii) : option reader :=
  match c with
  | None => Some (set_state (parse_save_field r) START_RECORD)
  | Some ch =>
      if is_crlf ch then Some (set_state (parse_save_field r) EAT_CRNL)
      else if Ascii.eqb ch quotechar then Some (set_state r IN_QUOTED_FIELD)
      else if Ascii.eqb ch delimiter then Some (parse_save_field r)
      else option_map (fun r' => set_state r' IN_FIELD) (parse_add_char r ch)
  end.

(** One step of the reader; [None] as the character is the end of a
    line, [None] as the answer is [csv.Error]. *)
Definition parse_process_char (r : reader) (c : option ascii) : option reader :=
  match st r with
  | START_RECORD =>
      match c with
      | None => Some r
      | Some ch =>
          if is_crlf ch then Some (set_state r EAT_CRNL)
          else start_field (set_state r START_FIELD) c
      end
  | START_FIELD => start_field r c
  | IN_FIELD =>
      match c with
      | None => Some (set_state (parse_save_field r) START_RECORD)
      | Some ch =>
          if is_crlf ch then Some (set_state (parse_save_field r) EAT_CRNL)
          else if Ascii.eqb ch delimiter
          then Some (set_state (parse_save_field r) START_FIELD)
          else parse_add_char r ch
      end
  | IN_QUOTED_FIELD =>
      match c with
      | None => Some r
      | Some ch =>
          if Ascii.eqb ch quotechar then Some (set_state r QUOTE_IN_QUOTED_FIELD)
          else parse_add_char r ch
      end
  | QUOTE_IN_QUOTED_FIELD =>
      match c with
      | None => Some (set_state (parse_save_field r) START_RECORD)
      | Some ch =>
          if Ascii.eqb ch quotechar
          then option_map (fun r' => set_state r' IN_QUOTED_FIELD)
                          (parse_add_char r ch)
          else if Ascii.eqb ch delimiter
          then Some (set_state (parse_save_field r) START_FIELD)
          else if is_crlf ch
          then Some (set_state (parse_save_field r) EAT_CRNL)
          else option_map (fun r' => set_state r' IN_FIELD)
                          (parse_add_char r ch)
      end
  | EAT_CRNL =>
      match c with
      | None => Some (set_state r START_RECORD)
      | Some ch => if is_crlf ch then Some r else None
      end
  end.

Fixpoint feed_chars (r : reader) (line : string) : option reader :=
  match line with
  | EmptyString => Some r
  | String c rest =>
      match parse_process_char r (Some c) with
      | Some r' => feed_chars r' rest
      | None => None
      end
  end.

(** A whole line, then the end-of-line step. *)
Definition feed_line (r : reader) (line : string) : option reader :=
  match feed_chars r line with
  | Some r' => parse_process_char r' None
  | None => None
  end.

(** At the end of the input a record is still due when a field was
    begun or a quoted field is open. *)
Definition pending (r : reader) : bool :=
  negb (field_len r =? 0)%N || state_eqb (st r) IN_QUOTED_FIELD.

(** [list(csv.reader(lines))]; [None] when the reader raises. *)
Fixpoint read_rows (r : reader) (lines : list string)
  : option (list (list string)) :=
  match lines with
  | [] => Some (if pending r then [fields (parse_save_field r)] else [])
  | line :: rest =>
      match feed_line r line with
      | None => None
      | Some r' =>
          if state_eqb (st r') START_RECORD
          then option_map (cons (fields r')) (read_rows parse_reset rest)
          else read_rows r' rest
      end
  end.

Definition reader_list (lines : list string) : option (list (list string)) :=
  read_rows parse_reset lines.

End Csv.

(* ================================================================== *)
(** ** The host and the state of a run *)

(** How one [subprocess.run] call ends. *)
Inductive ProcOutcome : Type :=
| Exited (returncode : Z) (stdout stderr : string)
| TimedOut (captured : option string)
| NotRun (reason : string).

(** One look at the clocks: the performance counter and the renderings
    of the current time the program asks for. *)
Record Clock : Type := mk_clock {
  perf : PrimFloat.float; (* time.perf_counter() *)
  utc_stamp : string;      (* strftime("%Y-%m-%dT%H:%M:%SZ") *)
  utc_iso : string;        (* datetime.now(UTC).isoformat() *)
  local_iso : string;      (* datetime.now().isoformat() *)
  local_logname : string   (* strftime("run_%Y-%m-%d_%H%M%S.txt") *)
}.

Record CpuFreq : Type := mk_freq {
  current : PrimFloat.float; fmin : PrimFloat.float; fmax : PrimFloat.float
}.
Record VirtualMemory : Type := mk_vm { vm_total : Z; vm_available : Z }.
Record Partition : Type := mk_part {
  device : string; mountpoint : string; fstype : string
}.
Record DiskUsage : Type := mk_usage {
  du_total : Z; du_used : Z; du_free : Z; du_percent : PrimFloat.float
}.

(** The metrics library.  The outer [None] of an answer is a raised
    exception. *)
Record Psutil : Type := mk_psutil {
  cpu_count : nat -> bool -> option (option Z);
  cpu_freq : nat -> option (option CpuFreq);
  virtual_memory : nat -> option VirtualMemory;
  disk_partitions : nat -> bool -> option (list Partition);
  disk_usage : nat -> string -> option DiskUsage
}.

(** The machine the program runs on.  Every answer may depend on how
    many commands have been run so far (clock readings: on how many
    readings were taken), so a host can behave differently each time it
    is asked.  For the file operations [Some msg] is the [OSError]
    raised. *)
Record Host : Type := mk_host {
  ROOT : string;
  os_sep : string;
  subprocess_run : nat -> string -> Z -> ProcOutcome;
  clock : nat -> Clock;
  path_exists : nat -> string -> bool;
  os_remove : nat -> string -> option string;
  file_read : nat -> string -> option string;
  os_makedirs : nat -> string -> option string;
  file_write : nat -> string -> option string;
  shutil_which : nat -> string -> bool;
  psutil : option Psutil;
  IsUserAnAdmin : option bool
}.

Inductive exn : Type :=
| TimeoutExpired (cmd : string) (timeout : Z) (stdout : option string)
| OSError (msg : string)
| IndexError (msg : string)
| KeyError (key : string)
| NameError (name : string)
| TypeError (msg : string)
| AttributeError (msg : string)
| CsvError (msg : string)
| OverflowError (msg : string)
| PsutilError.

(** [str(e)] *)
Definition str_exn (e : exn) : string :=
  match e with
  | TimeoutExpired cmd timeout _ =>
      "Command '" ++ cmd ++ "' timed out after " ++
      PyStr.str_of_Z timeout ++ " seconds"
  | OSError msg => msg
  | IndexError msg => msg
  | KeyError key => "'" ++ key ++ "'"
  | NameError name => "name '" ++ name ++ "' is not defined"
  | TypeError msg => msg
  | AttributeError msg => msg
  | CsvError msg => msg
  | OverflowError msg => msg
  | PsutilError => EmptyString
  end.

(** What a written file holds: a JSON document (kept as the value that
    was dumped) or plain text. *)
Inductive Artifact : Type :=
| JsonDoc (v : pyval)
| TextDoc (s : string).

Record World : Type := mk_world {
  ncalls : nat;                          (* commands run so far *)
  nclock : nat;                          (* clock readings so far *)
  lines : list string;                   (* the run log *)
  written : list (string * Artifact)     (* files written, in order *)
}.

Definition initial_world : World :=
  {| ncalls := 0; nclock := 0; lines := []; written := [] |}.

Inductive Outcome (A : Type) : Type :=
| Ok (a : A)
| Raise (e : exn).
Arguments Ok {A} a.
Arguments Raise {A} e.

(** Computations that read and change the [World] and may raise. *)
Definition M (A : Type) : Type := World -> Outcome A * World.

Definition ret {A} (a : A) : M A := fun w => (Ok a, w).

Definition bind {A B} (m : M A) (f : A -> M B) : M B :=
  fun w =>
    match m w with
    | (Ok a, w') => f a w'
    | (Raise e, w') => (Raise e, w')
    end.

Definition raise {A} (e : exn) : M A := fun w => (Raise e, w).

(** [try: m except <any> as e: handler e] *)
Definition try_except {A} (m : M A) (handler : exn -> M A) : M A :=
  fun w =>
    match m w with
    | (Ok a, w') => (Ok a, w')
    | (Raise e, w') => handler e w'
    end.

Declare Scope py_scope.
Delimit Scope py_scope with py.
Notation "x <- m ;; k" := (bind m (fun x => k))
  (at level 61, m at next level, right associativity) : py_scope.
Notation "' pat <- m ;; k" := (bind m (fun x => match x with pat => k end))
  (at level 61, pat pattern, m at next level, right associativity) : py_scope.
Notation "m ;; k" := (bind m (fun _ => k))
  (at level 61, right associativity) : py_scope.
Local Open Scope py_scope.

(** [for x in xs: s = body x s] *)
Fixpoint for_each {A S} (xs : list A) (body : A -> S -> M S) (s : S) : M S :=
  match xs with
  | [] => ret s
  | x :: rest => s' <- body x s ;; for_each rest body s'
  end.

(** A [try] block whose statements each update a dictionary in place:
    when a statement raises, the handler goes on with the dictionary as
    the statements before it left it. *)
Fixpoint try_steps (steps : list (dict -> M dict)) (handler : dict -> M dict)
  (d : dict) : M dict :=
  match steps with
  | [] => ret d
  | step :: rest =>
      fun w =>
        match step d w with
        | (Ok d', w') => try_steps rest handler d' w'
        | (Raise _, w') => handler d w'
        end
  end.

(** An optional answer, [None] raising [e]. *)
Definition or_raise {A} (o : option A) (e : exn) : M A :=
  match o with
  | Some a => ret a
  | None => raise e
  end.

(** [xs[i]] *)
Definition list_index {A} (xs : list A) (i : nat) : M A :=
  or_raise (nth_error xs i) (IndexError "list index out of range").

(** [d[k]] *)
Definition dict_index {V} (d : list (string * V)) (k : string) : M V :=
  or_raise (dict_get d k) (KeyError k).

(** A local variable read after a loop that may not have bound it. *)
Definition local {A} (name : string) (v : option A) : M A :=
  or_raise v (NameError name).

Definition FOLDERS : list string :=
  ["firmware"; "hardware"; "peripherals"; "storage"; "system"].

Definition dq : string := String (ascii_of_nat 34) EmptyString.

Definition COMMANDS : list (string * string) :=
  [ ("systeminfo", "systeminfo");
    ("wmic_cpu", "wmic cpu get /format:list");
    ("wmic_bios", "wmic bios get /format:list");
    ("wmic_baseboard", "wmic baseboard get /format:list");
    ("wmic_diskdrive", "wmic diskdrive get /format:list");
    ("wmic_video", "wmic path win32_VideoController get /format:list");
    ("driverquery", "driverquery /v /fo list");
    ("tasklist_csv", "tasklist /V /FO CSV");
    ("get_pnp_device",
     "powershell -Command " ++ dq ++
     "Get-PnpDevice -PresentOnly | Format-List -Force" ++ dq);
    ("get_physicaldisk",
     "powershell -Command " ++ dq ++ "Get-PhysicalDisk | Format-List *" ++ dq);
    ("get_partition",
     "powershell -Command " ++ dq ++ "Get-Partition | Format-List *" ++ dq);
    ("get_netadapter",
     "powershell -Command " ++ dq ++ "Get-NetAdapter | Format-List *" ++ dq);
    ("wevtutil_system", "wevtutil qe System /c:200 /f:text");
    ("wevtutil_app", "wevtutil qe Application /c:200 /f:text");
    ("dxdiag", "dxdiag /t dxdiag_output.txt");
    ("powercfg_query", "powercfg /q");
    ("bcdedit", "bcdedit /enum all");
    ("wmic_logicaldevice", "wmic path CIM_LogicalDevice get /format:list");
    ("wmic_service", "wmic service get /format:list") ].

Definition microcode_query : string :=
  "powershell -Command " ++ dq ++
  "Get-WinEvent -FilterHashtable @{LogName='System';Level=3} -MaxEvents 200 | Where-Object { $_.Message -match 'microcode' } | Format-List -Property TimeCreated,Id,Message"
  ++ dq.

Definition usb_query : string :=
  "powershell -Command " ++ dq ++
  "Get-PnpDevice -PresentOnly | Where-Object { $_.InstanceId -like 'USB*' } | Format-List -Property *"
  ++ dq.

Definition bluetooth_query : string :=
  "powershell -Command " ++ dq ++
  "Get-PnpDevice -PresentOnly | Where-Object { $_.Class -like 'Bluetooth' } | Format-List -Property *"
  ++ dq.

(** The result dictionary of [run]: keys [rc], [out], [err]. *)
Record CommandResult : Type := mk_result {
  rc : Z;
  out : string;
  err : string
}.

(** [parse_wmic]: a line with [=] gives [key.strip() = value.strip()],
    split at the first [=]; a repeated key keeps its last value. *)
Definition parse_wmic_line (d : dict) (line : string) : dict :=
  if PyStr.contains "=" line then
    match PyStr.split1 "=" line with
    | [k; v] => dict_set d (PyStr.strip k) (VStr (PyStr.strip v))
    | _ => d
    end
  else d.

Definition parse_wmic (text : string) : dict :=
  fold_left parse_wmic_line (PyStr.splitlines text) [].

(** The dictionary comprehension over the [systeminfo] output: the
    same with [:] as the separator. *)
Definition systeminfo_line (d : dict) (line : string) : dict :=
  if PyStr.contains ":" line then
    match PyStr.split1 ":" line with
    | [k; v] => dict_set d (PyStr.strip k) (VStr (PyStr.strip v))
    | _ => d
    end
  else d.

Definition systeminfo_parsed (text : string) : dict :=
  fold_left systeminfo_line (PyStr.splitlines text) [].

(** [rows[1:41]] *)
Definition data_rows {A} (rows : list A) : list A := firstn 40 (skipn 1 rows).

(** [[dict(zip(rows[0], row)) for row in rows[1:41]] if rows else []] *)
Definition process_sample (rows : list (list string)) : pyval :=
  VList
    match rows with
    | [] => []
    | header :: _ => map (fun row => VDict (dict_zip header row)) (data_rows rows)
    end.

(** The text of one raw block as [write_summary_and_raw] writes it. *)
Definition raw_block_text (block : string) : string :=
  block ++ (if negb (PyStr.ends_with_newline block) then PyStr.nl else "") ++
  PyStr.nl ++ "----" ++ PyStr.nl ++ PyStr.nl.

Definition raw_text (raw_blocks : list string) : string :=
  "==== RAW OUTPUT ====" ++ PyStr.nl ++
  String.concat "" (map raw_block_text raw_blocks).

(** The body of a transcript block: [out + "\nERR:\n" + err]. *)
Definition transcript (r : CommandResult) : string :=
  out r ++ PyStr.nl ++ "ERR:" ++ PyStr.nl ++ err r.

(** [sum(values)]: from the integer 0, left to right. *)
Definition py_sum_step (acc : add_result) (v : pyval) : add_result :=
  match acc with
  | Added a => py_add a v
  | failed => failed
  end.

Definition py_sum (values : list pyval) : add_result :=
  fold_left py_sum_step values (Added (VInt 0)).

(** [entry.get("elapsed_seconds", 0)] *)
Definition elapsed_or_zero (entry : dict) : pyval :=
  match dict_get entry "elapsed_seconds" with
  | Some v => v
  | None => VInt 0
  end.

(** [summary_map.get(m, {})], ready for the [.get] that follows: only
    a dictionary has one. *)
Definition entry_or_empty (summary_map : dict) (m : string) : M dict :=
  match dict_get summary_map m with
  | None => ret []
  | Some (VDict entry) => ret entry
  | Some _ => raise (AttributeError "object has no attribute 'get'")
  end.

(* ================================================================== *)
(** ** The program *)

Section Program.

Variable host : Host.

(** [os.path.join] of a directory and a plain name. *)
Definition path_join (a b : string) : string := a ++ os_sep host ++ b.

Definition RESULT_DIR : string := path_join (ROOT host) "result".
Definition LOGS_DIR : string := path_join (ROOT host) "logs".

(** *** Primitive effects *)

Definition read_clock : M Clock :=
  fun w =>
    (Ok (clock host (nclock w)),
     {| ncalls := ncalls w; nclock := S (nclock w);
        lines := lines w; written := written w |}).

Definition perf_counter : M PrimFloat.float :=
  c <- read_clock ;; ret (perf c).
Definition now_utc_stamp : M string := c <- read_clock ;; ret (utc_stamp c).
Definition now_utc_iso : M string := c <- read_clock ;; ret (utc_iso c).
Definition now_local_iso : M string := c <- read_clock ;; ret (local_iso c).
Definition now_local_logname : M string :=
  c <- read_clock ;; ret (local_logname c).

(** [subprocess.run(cmd, shell=True, capture_output=True, text=True,
    timeout=timeout)]: the completed process, or an exception. *)
Definition subprocess_run_call (cmd : string) (timeout : Z)
  : M (Z * string * string) :=
  fun w =>
    let w' := {| ncalls := S (ncalls w); nclock := nclock w;
                 lines := lines w; written := written w |} in
    match subprocess_run host (ncalls w) cmd timeout with
    | Exited returncode stdout stderr => (Ok (returncode, stdout, stderr), w')
    | TimedOut captured => (Raise (TimeoutExpired cmd timeout captured), w')
    | NotRun reason => (Raise (OSError reason), w')
    end.

Definition exists_call (path : string) : M bool :=
  fun w => (Ok (path_exists host (ncalls w) path), w).

Definition remove_call (path : string) : M unit :=
  fun w =>
    match os_remove host (ncalls w) path with
    | None => (Ok tt, w)
    | Some msg => (Raise (OSError msg), w)
    end.

Definition makedirs_call (path : string) : M unit :=
  fun w =>
    match os_makedirs host (ncalls w) path with
    | None => (Ok tt, w)
    | Some msg => (Raise (OSError msg), w)
    end.

(** [with open(path, "w") as f: ...] writing [content]. *)
Definition write_call (path : string) (content : Artifact) : M unit :=
  fun w =>
    match file_write host (ncalls w) path with
    | None =>
        (Ok tt,
         {| ncalls := ncalls w; nclock := nclock w; lines := lines w;
            written := push (written w) (path, content) |})
    | Some msg => (Raise (OSError msg), w)
    end.

(** [with open(path, "r") as f: return f.read()] *)
Definition read_call (path : string) : M string :=
  fun w =>
    match file_read host (ncalls w) path with
    | Some text => (Ok text, w)
    | None => (Raise (OSError ("cannot read " ++ path)), w)
    end.

Definition which_call (name : string) : M bool :=
  fun w => (Ok (shutil_which host (ncalls w) name), w).

(** A call into the metrics library. *)
Definition psutil_call {A} (answer : nat -> option A) : M A :=
  fun w =>
    match answer (ncalls w) with
    | Some a => (Ok a, w)
    | None => (Raise PsutilError, w)
    end.

(** *** The run log *)

Definition logger_append (level msg : string) : M unit :=
  iso <- now_utc_iso ;;
  let ts := iso ++ "Z" in
  fun w =>
    (Ok tt,
     {| ncalls := ncalls w; nclock := nclock w;
        lines := push (lines w) ("[" ++ level ++ "] " ++ ts ++ " " ++ msg);
        written := written w |}).

Definition logger_info (msg : string) : M unit := logger_append "INFO" msg.
Definition logger_warn (msg : string) : M unit := logger_append "WARN" msg.
Definition logger_error (msg : string) : M unit := logger_append "ERROR" msg.

Definition logger_lines : M (list string) := fun w => (Ok (lines w), w).

Definition dump_to_file (path : string) : M bool :=
  try_except
    (ls <- logger_lines ;;
     write_call path (TextDoc (PyStr.join PyStr.nl ls)) ;;
     ret true)
    (fun _ => ret false).

(** *** The command runner *)

Definition run (cmd : string) (timeout : Z) : M CommandResult :=
  logger_info ("Running: " ++ cmd) ;;
  try_except
    ('(returncode, stdout, stderr) <- subprocess_run_call cmd timeout ;;
     ret {| rc := returncode; out := stdout; err := stderr |})
    (fun e =>
       match e with
       | TimeoutExpired _ _ stdout =>
           logger_warn ("Timeout: " ++ cmd) ;;
           ret {| rc := -1;
                  out := match stdout with Some o => o | None => "" end;
                  err := "TIMEOUT: " ++ str_exn e |}
       | _ =>
           logger_error ("Error: " ++ cmd ++ " - " ++ str_exn e) ;;
           ret {| rc := -1; out := ""; err := str_exn e |}
       end).

(** *** Persistence *)

Definition ensure_dirs : M unit :=
  for_each FOLDERS (fun d _ => makedirs_call (path_join (ROOT host) d)) tt ;;
  makedirs_call RESULT_DIR ;;
  makedirs_call LOGS_DIR.

Definition write_summary_and_raw (folder : string) (summary : dict)
  (raw_blocks : list string) : M unit :=
  let p := path_join (ROOT host) folder in
  makedirs_call p ;;
  write_call (path_join p "summary.json") (JsonDoc (VDict summary)) ;;
  write_call (path_join p "raw.txt") (TextDoc (raw_text raw_blocks)).

Definition safe_read_file (path : string) : M string :=
  try_except (read_call path)
             (fun _ => ret ("<error reading " ++ path ++ ">")).

Definition aggregate_results (summary_map : dict) : M unit :=
  write_call (path_join RESULT_DIR "results_of_all_files.json")
             (JsonDoc (VDict summary_map)) ;;
  logger_info "Aggregated results written".

(** *** The domain collectors *)

Definition collect_system : M dict :=
  start <- perf_counter ;;
  stamp <- now_utc_stamp ;;
  let raw_blocks := @nil string in
  let summary := [("collected_at", VStr stamp)] in
  cmd <- dict_index COMMANDS "systeminfo" ;;
  r <- run cmd 30 ;;
  let raw_blocks :=
    push raw_blocks ("### systeminfo" ++ PyStr.nl ++ transcript r) in
  let summary :=
    dict_set summary "systeminfo_parsed" (VDict (systeminfo_parsed (out r))) in
  cmd <- dict_index COMMANDS "tasklist_csv" ;;
  r2 <- run cmd 30 ;;
  let raw_blocks :=
    push raw_blocks ("### tasklist" ++ PyStr.nl ++ transcript r2) in
  summary <-
    try_steps
      [fun summary =>
         rows <- or_raise (Csv.reader_list (PyStr.splitlines (out r2)))
                          (CsvError "field larger than field limit (131072)") ;;
         ret (dict_set summary "process_sample" (process_sample rows))]
      (fun summary =>
         ret (dict_set summary "process_sample_parse_error" (VStr "CSV error")))
      summary ;;
  '(r, raw_blocks) <-
    for_each ["wevtutil_system"; "wevtutil_app"; "driverquery"; "wmic_service"]
      (fun cmd '(_, raw_blocks) =>
         line <- dict_index COMMANDS cmd ;;
         r <- run line 40 ;;
         ret (r, push raw_blocks ("### " ++ cmd ++ PyStr.nl ++ transcript r)))
      (r, raw_blocks) ;;
  let summary :=
    dict_set summary "drivers_count"
      (if dict_has COMMANDS "driverquery"
       then VInt (Z.of_nat (PyStr.count "Driver Name" (out r)))
       else VInt 0) in
  let summary :=
    dict_set summary "services_length"
      (if dict_has COMMANDS "wmic_service" then py_len (out r) else VInt 0) in
  finish <- perf_counter ;;
  let elapsed := PrimFloat.sub finish start in
  let summary := dict_set summary "elapsed_seconds" (VFloat elapsed) in
  write_summary_and_raw "system" summary raw_blocks ;;
  logger_info ("System done in " ++ format_2f elapsed ++ "s") ;;
  ret summary.

Definition cpu_freq_value (cf : CpuFreq) : pyval :=
  VDict [("current", VFloat (current cf)); ("min", VFloat (fmin cf));
         ("max", VFloat (fmax cf))].

Definition int_or_none (o : option Z) : pyval :=
  match o with Some z => VInt z | None => VNone end.

Definition collect_hardware : M dict :=
  start <- perf_counter ;;
  stamp <- now_utc_stamp ;;
  let raw_blocks := @nil string in
  let summary := [("collected_at", VStr stamp)] in
  '(r, raw_blocks, summary) <-
    for_each ["wmic_cpu"; "wmic_bios"; "wmic_baseboard"; "wmic_video"]
      (fun cmd '(_, raw_blocks, summary) =>
         line <- dict_index COMMANDS cmd ;;
         r <- run line 20 ;;
         key <- list_index (PyStr.split_char "_" cmd) 1 ;;
         ret (Some r,
              push raw_blocks ("### " ++ cmd ++ PyStr.nl ++ transcript r),
              dict_set summary key (VDict (parse_wmic (out r)))))
      (None, raw_blocks, summary) ;;
  r <- local "r" r ;;
  let summary := dict_set summary "video_raw_length" (py_len (out r)) in
  '(raw_blocks, summary) <-
    match psutil host with
    | Some ps =>
        summary <-
          try_steps
            [ (fun summary =>
                 n <- psutil_call (fun k => cpu_count ps k true) ;;
                 ret (dict_set summary "logical_cpus" (int_or_none n)));
              (fun summary =>
                 n <- psutil_call (fun k => cpu_count ps k false) ;;
                 ret (dict_set summary "physical_cpus" (int_or_none n)));
              (fun summary =>
                 cf <- psutil_call (cpu_freq ps) ;;
                 ret match cf with
                     | Some cf =>
                         dict_set summary "cpu_freq_mhz" (cpu_freq_value cf)
                     | None => summary
                     end);
              (fun summary =>
                 vm <- psutil_call (virtual_memory ps) ;;
                 let summary :=
                   dict_set summary "memory_total_bytes" (VInt (vm_total vm)) in
                 ret (dict_set summary "memory_available_bytes"
                               (VInt (vm_available vm)))) ]
            (fun summary => ret (dict_set summary "psutil_error" (VStr "Error")))
            summary ;;
        ret (raw_blocks, summary)
    | None =>
        ret (push raw_blocks ("### psutil not available" ++ PyStr.nl), summary)
    end ;;
  finish <- perf_counter ;;
  let elapsed := PrimFloat.sub finish start in
  let summary := dict_set summary "elapsed_seconds" (VFloat elapsed) in
  write_summary_and_raw "hardware" summary raw_blocks ;;
  logger_info ("Hardware done in " ++ format_2f elapsed ++ "s") ;;
  ret summary.

Definition firmware_keys : list string :=
  ["Manufacturer"; "SMBIOSBIOSVersion"; "BIOSVersion"; "SerialNumber";
   "ReleaseDate"].

Definition collect_firmware : M dict :=
  start <- perf_counter ;;
  stamp <- now_utc_stamp ;;
  let raw_blocks := @nil string in
  let summary := [("collected_at", VStr stamp)] in
  cmd <- dict_index COMMANDS "wmic_bios" ;;
  r <- run cmd 15 ;;
  let raw_blocks :=
    push raw_blocks ("### wmic bios" ++ PyStr.nl ++ transcript r) in
  '(r, raw_blocks) <-
    for_each ["bcdedit"; "powercfg_query"]
      (fun cmd '(_, raw_blocks) =>
         line <- dict_index COMMANDS cmd ;;
         r <- run line 20 ;;
         ret (r, push raw_blocks ("### " ++ cmd ++ PyStr.nl ++ transcript r)))
      (r, raw_blocks) ;;
  let dx_out := path_join (ROOT host) "dxdiag_output.txt" in
  stale <- exists_call dx_out ;;
  (if stale then remove_call dx_out else ret tt) ;;
  cmd <- dict_index COMMANDS "dxdiag" ;;
  r <- run cmd 30 ;;
  present <- exists_call dx_out ;;
  body <- (if present then safe_read_file dx_out else ret (transcript r)) ;;
  let raw_blocks := push raw_blocks ("### dxdiag" ++ PyStr.nl ++ body) in
  r <- run microcode_query 30 ;;
  let raw_blocks :=
    push raw_blocks ("### microcode events" ++ PyStr.nl ++ transcript r) in
  let parsed := parse_wmic (out r) in
  let summary :=
    fold_left
      (fun summary k =>
         match dict_get parsed k with
         | Some v => dict_set summary k v
         | None => summary
         end)
      firmware_keys summary in
  finish <- perf_counter ;;
  let elapsed := PrimFloat.sub finish start in
  let summary := dict_set summary "elapsed_seconds" (VFloat elapsed) in
  write_summary_and_raw "firmware" summary raw_blocks ;;
  logger_info ("Firmware done in " ++ format_2f elapsed ++ "s") ;;
  ret summary.

Definition partition_entry (p : Partition) (u : DiskUsage) : pyval :=
  VDict [("device", VStr (device p)); ("mountpoint", VStr (mountpoint p));
         ("fstype", VStr (fstype p)); ("total", VInt (du_total u));
         ("used", VInt (du_used u)); ("free", VInt (du_free u));
         ("percent", VFloat (du_percent u))].

Definition collect_storage : M dict :=
  start <- perf_counter ;;
  stamp <- now_utc_stamp ;;
  let raw_blocks := @nil string in
  let summary := [("collected_at", VStr stamp)] in
  '(r, raw_blocks) <-
    for_each ["wmic_diskdrive"; "get_physicaldisk"; "get_partition"]
      (fun cmd '(_, raw_blocks) =>
         line <- dict_index COMMANDS cmd ;;
         r <- run line 30 ;;
         ret (Some r,
              push raw_blocks ("### " ++ cmd ++ PyStr.nl ++ transcript r)))
      (None, raw_blocks) ;;
  found <- which_call "smartctl" ;;
  '(r, raw_blocks) <-
    (if found then
       r <- run "smartctl --scan" 20 ;;
       let raw_blocks :=
         push raw_blocks ("### smartctl scan" ++ PyStr.nl ++ transcript r) in
       for_each (PyStr.splitlines (out r))
         (fun line '(r, raw_blocks) =>
            dev <- list_index (PyStr.split_ws line) 0 ;;
            if negb (PyStr.is_empty dev) then
              r <- run ("smartctl -H " ++ dev) 20 ;;
              ret (Some r,
                   push raw_blocks
                     ("### smartctl " ++ dev ++ PyStr.nl ++ transcript r))
            else ret (r, raw_blocks))
         (Some r, raw_blocks)
     else
       ret (r, push raw_blocks ("### smartctl not found" ++ PyStr.nl))) ;;
  summary <-
    match psutil host with
    | Some ps =>
        try_steps
          [fun summary =>
             parts <- psutil_call (fun k => disk_partitions ps k true) ;;
             sample <-
               for_each parts
                 (fun p sample =>
                    u <- psutil_call (fun k => disk_usage ps k (mountpoint p)) ;;
                    ret (push sample (partition_entry p u)))
                 [] ;;
             ret (dict_set summary "partitions_sample" (VList sample))]
          (fun summary =>
             ret (dict_set summary "partitions_error" (VStr "Error")))
          summary
    | None => ret summary
    end ;;
  finish <- perf_counter ;;
  let elapsed := PrimFloat.sub finish start in
  let summary := dict_set summary "elapsed_seconds" (VFloat elapsed) in
  write_summary_and_raw "storage" summary raw_blocks ;;
  logger_info ("Storage done in " ++ format_2f elapsed ++ "s") ;;
  ret summary.

Definition collect_peripherals : M dict :=
  start <- perf_counter ;;
  stamp <- now_utc_stamp ;;
  let raw_blocks := @nil string in
  let summary := [("collected_at", VStr stamp)] in
  usb <- run usb_query 40 ;;
  let raw_blocks :=
    push raw_blocks ("### USB" ++ PyStr.nl ++ transcript usb) in
  '(last, raw_blocks) <-
    for_each ["get_pnp_device"; "get_netadapter"; "wmic_logicaldevice"]
      (fun cmd '(_, raw_blocks) =>
         line <- dict_index COMMANDS cmd ;;
         r <- run line (if PyStr.contains "pnp" cmd then 40 else 30) ;;
         ret (Some (cmd, r),
              push raw_blocks ("### " ++ cmd ++ PyStr.nl ++ transcript r)))
      (None, raw_blocks) ;;
  bt <- run bluetooth_query 20 ;;
  let raw_blocks :=
    push raw_blocks ("### Bluetooth" ++ PyStr.nl ++ transcript bt) in
  let summary := dict_set summary "usb_entries_length" (py_len (out usb)) in
  '(cmd, r) <- local "cmd" last ;;
  let summary :=
    dict_set summary "pnp_entries_length"
      (if PyStr.contains "pnp" cmd then py_len (out r) else VInt 0) in
  let summary :=
    dict_set summary "netadapter_entries_length"
      (if PyStr.contains "netadapter" cmd then py_len (out r) else VInt 0) in
  finish <- perf_counter ;;
  let elapsed := PrimFloat.sub finish start in
  let summary := dict_set summary "elapsed_seconds" (VFloat elapsed) in
  write_summary_and_raw "peripherals" summary raw_blocks ;;
  logger_info ("Peripherals done in " ++ format_2f elapsed ++ "s") ;;
  ret summary.

(** *** Orchestration *)

(** [ctypes.windll.shell32.IsUserAnAdmin() != 0], [False] when the
    probe fails. *)
Definition is_admin : bool :=
  match IsUserAnAdmin host with
  | Some b => b
  | None => false
  end.

(** The progress display is left out; what remains is the call, the
    status flag and the error placeholder. *)
Definition run_module_with_spinner (name : string) (fn : M dict)
  (status_map : list (string * bool)) : M (dict * list (string * bool)) :=
  try_except
    (res <- fn ;;
     ret (res, dict_set status_map name true))
    (fun e =>
       ret ([("error", VStr (str_exn e))], dict_set status_map name false)).

Definition modules : list (string * M dict) :=
  [("system", collect_system); ("hardware", collect_hardware);
   ("firmware", collect_firmware); ("storage", collect_storage);
   ("peripherals", collect_peripherals)].

Definition bool_str (b : bool) : string := if b then "True" else "False".

(** [sum(summary_map.get(m, {}).get("elapsed_seconds", 0) for m, _ in
    modules)] *)
Definition sum_elapsed (summary_map : dict) : M pyval :=
  for_each modules
    (fun '(m, _) acc =>
       entry <- entry_or_empty summary_map m ;;
       match py_add acc (elapsed_or_zero entry) with
       | Added total => ret total
       | Unsupported => raise (TypeError "unsupported operand type(s) for +")
       | IntTooLarge =>
           raise (OverflowError "int too large to convert to float")
       end)
    (VInt 0).

(** [main], without the console output. *)
Definition main : M unit :=
  ensure_dirs ;;
  started <- now_local_iso ;;
  logname <- now_local_logname ;;
  let logfile := path_join LOGS_DIR logname in
  let admin := is_admin in
  logger_info ("Admin: " ++ bool_str admin) ;;
  (if negb admin then logger_warn "Not admin - limited queries" else ret tt) ;;
  stamp <- now_utc_stamp ;;
  let summary_map :=
    [("collected_at", VStr stamp); ("local_start", VStr started);
     ("admin", VBool admin)] in
  let live_status := map (fun '(name, _) => (name, false)) modules in
  '(summary_map, live_status) <-
    for_each modules
      (fun '(name, fn) '(summary_map, live_status) =>
         '(res, live_status) <- run_module_with_spinner name fn live_status ;;
         ret (dict_set summary_map name (VDict res), live_status))
      (summary_map, live_status) ;;
  total_elapsed <- sum_elapsed summary_map ;;
  let summary_map := dict_set summary_map "total_elapsed_seconds" total_elapsed in
  aggregate_results summary_map ;;
  dump_to_file logfile ;;
  ret tt.

End Program.

(* ================================================================== *)
(** ** Concrete hosts *)

Definition steady_clock (k : nat) : Clock :=
  {| perf := PrimFloat.div (nearest_float (Z.of_nat k)) (nearest_float 4);
     utc_stamp := "2025-01-01T00:00:00Z";
     utc_iso := "2025-01-01T00:00:00+00:00";
     local_iso := "2025-01-01T00:00:00";
     local_logname := "run_2025-01-01_000000.txt" |}.

(** A host scripted by command line: a command missing from [script]
    exits with status 0 and prints nothing; [tools] are the programs
    [shutil.which] finds; [files] gives the readable files after [k]
    commands; writing to a path listed in [readonly] fails. *)
Definition scripted_host (script : list (string * ProcOutcome))
  (tools : list string) (files : nat -> string -> option string)
  (readonly : list string) (metrics : option Psutil) : Host :=
  {| ROOT := "/opt/jettox";
     os_sep := "/";
     subprocess_run := fun _ cmd _ =>
       match dict_get script cmd with
       | Some o => o
       | None => Exited 0 "" ""
       end;
     clock := steady_clock;
     path_exists := fun k p =>
       match files k p with Some _ => true | None => false end;
     os_remove := fun _ _ => None;
     file_read := files;
     os_makedirs := fun _ _ => None;
     file_write := fun _ p =>
       if existsb (String.eqb p) readonly
       then Some ("[Errno 13] Permission denied: '" ++ p ++ "'")
       else None;
     shutil_which := fun _ name => existsb (String.eqb name) tools;
     psutil := metrics;
     IsUserAnAdmin := Some true |}.

Definition no_files : nat -> string -> option string := fun _ _ => None.

(** Nothing installed, nothing printed, everything writable. *)
Definition quiet_host : Host := scripted_host [] [] no_files [] None.

(** A machine whose commands print a little of what the real ones do.
    The driver listing names three drivers, the service listing none;
    the BIOS dump names the manufacturer, the event query finds
    nothing. *)
Definition sample_script : list (string * ProcOutcome) :=
  [ ("systeminfo",
     Exited 0 ("Host Name: LAB-PC" ++ PyStr.nl ++
               "OS Name: Microsoft Windows 11 Pro" ++ PyStr.nl) "");
    ("tasklist /V /FO CSV",
     Exited 0 ("Image Name,PID,Session Name" ++ PyStr.nl ++
               "System Idle Process,0,Services" ++ PyStr.nl ++
               "svchost.exe,812" ++ PyStr.nl) "");
    ("driverquery /v /fo list",
     Exited 0 ("Driver Name: ACPI" ++ PyStr.nl ++
               "Driver Name: disk" ++ PyStr.nl ++
               "Driver Name: volmgr" ++ PyStr.nl) "");
    ("wmic service get /format:list",
     Exited 0 ("Name=Spooler" ++ PyStr.nl ++ "State=Running" ++ PyStr.nl) "");
    ("wmic bios get /format:list",
     Exited 0 ("Manufacturer=Dell Inc." ++ PyStr.nl ++
               "SMBIOSBIOSVersion=1.21.0" ++ PyStr.nl ++
               "SerialNumber=7XK2P93" ++ PyStr.nl) "");
    (usb_query, Exited 0 ("InstanceId : USB\ROOT_HUB30" ++ PyStr.nl) "");
    ("powershell -Command " ++ dq ++
     "Get-PnpDevice -PresentOnly | Format-List -Force" ++ dq,
     Exited 0 ("Class : Monitor" ++ PyStr.nl ++ "Class : Mouse" ++ PyStr.nl) "");
    ("powershell -Command " ++ dq ++ "Get-NetAdapter | Format-List *" ++ dq,
     Exited 0 ("Name : Ethernet" ++ PyStr.nl) "");
    ("wmic path CIM_LogicalDevice get /format:list", TimedOut None) ].

Definition sample_host : Host :=
  scripted_host sample_script [] no_files [] None.

(** The command exits with status -1 and prints nothing. *)
Definition hangup_host : Host :=
  scripted_host [("systeminfo", Exited (-1) "" "")] [] no_files [] None.

(** The command cannot be run, and the exception has no message. *)
Definition silent_failure_host : Host :=
  scripted_host [("systeminfo", NotRun "")] [] no_files [] None.

(** A task listing with a header and 41 data rows. *)
Definition long_listing : string :=
  "Image Name,PID" ++ PyStr.nl ++
  String.concat "" (repeat ("svchost.exe,4" ++ PyStr.nl) 41).

Definition long_listing_host : Host :=
  scripted_host [("tasklist /V /FO CSV", Exited 0 long_listing "")]
                [] no_files [] None.

(** A task listing that is one field of 131073 characters, one more
    than the CSV reader accepts. *)
Fixpoint repeat_char (c : ascii) (n : nat) (acc : string) : string :=
  match n with
  | O => acc
  | S k => repeat_char c k (String c acc)
  end.

Definition oversized_listing : string :=
  repeat_char "x"%char (Nat.pow 2 17 + 1) EmptyString.

Definition oversized_host : Host :=
  scripted_host [("tasklist /V /FO CSV", Exited 0 oversized_listing "")]
                [] no_files [] None.

(** The diagnostic tool prints nothing and leaves its report in the
    side file. *)
Definition side_file_host : Host :=
  scripted_host sample_script []
    (fun k p =>
       if (4 <=? k)%nat && String.eqb p "/opt/jettox/dxdiag_output.txt"
       then Some "System Information: LAB-PC"
       else None)
    [] None.

(** The diagnostic tool prints nothing and writes its report where it
    is told to: [dxdiag_output.txt] in the working directory of the
    run, here [/home/lab], which is not the program's own directory. *)
Definition working_directory_host : Host :=
  scripted_host sample_script []
    (fun k p =>
       if (4 <=? k)%nat && String.eqb p "/home/lab/dxdiag_output.txt"
       then Some "System Information: LAB-PC"
       else None)
    [] None.

(** The disk-health tool is installed and its device scan ends with an
    empty line. *)
Definition blank_scan_host : Host :=
  scripted_host
    [("smartctl --scan",
      Exited 0 ("/dev/sda -d scsi # /dev/sda, SCSI device" ++ PyStr.nl ++
                PyStr.nl) "")]
    ["smartctl"] no_files [] None.

(** The aggregate report cannot be written. *)
Definition readonly_result_host : Host :=
  scripted_host [] [] no_files
    ["/opt/jettox/result/results_of_all_files.json"] None.

(** The system domain's summary cannot be written. *)
Definition readonly_system_host : Host :=
  scripted_host [] [] no_files ["/opt/jettox/system/summary.json"] None.

(** The log file cannot be written. *)
Definition readonly_log_host : Host :=
  scripted_host [] [] no_files
    ["/opt/jettox/logs/run_2025-01-01_000000.txt"] None.

(* ================================================================== *)
(** ** What the runner and the collectors build

    Closed forms, in terms of the host's answers, of the values the
    program computes; the lemmas below show the program computes
    them. *)

(** The result dictionary [run] builds for each way the process call
    can end, the call being the one made after [k] commands. *)
Definition run_result (host : Host) (cmd : string) (timeout : Z) (k : nat)
  : CommandResult :=
  match subprocess_run host k cmd timeout with
  | Exited returncode stdout stderr =>
      {| rc := returncode; out := stdout; err := stderr |}
  | TimedOut captured =>
      {| rc := -1;
         out := match captured with Some o => o | None => "" end;
         err := "TIMEOUT: Command '" ++ cmd ++ "' timed out after " ++
                PyStr.str_of_Z timeout ++ " seconds" |}
  | NotRun reason => {| rc := -1; out := ""; err := reason |}
  end.

(** The directory and the two artifacts of [folder] can be written
    once [k] commands have run. *)
Definition persist_ok (host : Host) (k : nat) (folder : string) : Prop :=
  let p := path_join host (ROOT host) folder in
  os_makedirs host k p = None /\
  file_write host k (path_join host p "summary.json") = None /\
  file_write host k (path_join host p "raw.txt") = None.

(** The files a collector leaves behind for [folder]. *)
Definition domain_artifacts (host : Host) (folder : string) (summary : dict)
  (raw_blocks : list string) : list (string * Artifact) :=
  let p := path_join host (ROOT host) folder in
  [ (path_join host p "summary.json", JsonDoc (VDict summary));
    (path_join host p "raw.txt", TextDoc (raw_text raw_blocks)) ].

(** The summary [collect_system] builds when it starts after [k]
    commands. *)
Definition system_summary (host : Host) (k : nat) (stamp : string)
  (elapsed : PrimFloat.float) : dict :=
  let r1 := run_result host "systeminfo" 30 k in
  let r2 := run_result host "tasklist /V /FO CSV" 30 (1 + k) in
  let r6 := run_result host "wmic service get /format:list" 40 (5 + k) in
  let summary :=
    [("collected_at", VStr stamp);
     ("systeminfo_parsed", VDict (systeminfo_parsed (out r1)))] in
  let summary :=
    match Csv.reader_list (PyStr.splitlines (out r2)) with
    | Some rows => dict_set summary "process_sample" (process_sample rows)
    | None =>
        dict_set summary "process_sample_parse_error" (VStr "CSV error")
    end in
  let summary :=
    dict_set summary "drivers_count"
      (VInt (Z.of_nat (PyStr.count "Driver Name" (out r6)))) in
  let summary := dict_set summary "services_length" (py_len (out r6)) in
  dict_set summary "elapsed_seconds" (VFloat elapsed).

(** The side file the vendor diagnostic tool writes. *)
Definition dx_out (host : Host) : string :=
  path_join host (ROOT host) "dxdiag_output.txt".

(** The file the diagnostic command line names, [dxdiag_output.txt],
    for a run whose working directory is [cwd]. *)
Definition side_file_in (host : Host) (cwd : string) : string :=
  path_join host cwd "dxdiag_output.txt".

(** The transcript blocks [collect_firmware] records when it starts
    after [k] commands. *)
Definition firmware_raw_blocks (host : Host) (k : nat) : list string :=
  let r := run_result host "dxdiag /t dxdiag_output.txt" 30 (3 + k) in
  [ "### wmic bios" ++ PyStr.nl ++
    transcript (run_result host "wmic bios get /format:list" 15 k);
    "### bcdedit" ++ PyStr.nl ++
    transcript (run_result host "bcdedit /enum all" 20 (1 + k));
    "### powercfg_query" ++ PyStr.nl ++
    transcript (run_result host "powercfg /q" 20 (2 + k));
    "### dxdiag" ++ PyStr.nl ++
    (if path_exists host (4 + k) (dx_out host) then
       match file_read host (4 + k) (dx_out host) with
       | Some text => text
       | None => "<error reading " ++ dx_out host ++ ">"
       end
     else out r ++ PyStr.nl ++ "ERR:" ++ PyStr.nl ++ err r);
    "### microcode events" ++ PyStr.nl ++
    transcript (run_result host microcode_query 30 (4 + k)) ].

(** The summary [collect_firmware] builds when it starts after [k]
    commands. *)
Definition firmware_summary (host : Host) (k : nat) (stamp : string)
  (elapsed : PrimFloat.float) : dict :=
  let parsed := parse_wmic (out (run_result host microcode_query 30 (4 + k))) in
  dict_set
    (fold_left
       (fun summary key =>
          match dict_get parsed key with
          | Some v => dict_set summary key v
          | None => summary
          end)
       firmware_keys [("collected_at", VStr stamp)])
    "elapsed_seconds" (VFloat elapsed).

(** The summary [collect_peripherals] builds when it starts after [k]
    commands. *)
Definition peripherals_summary (host : Host) (k : nat) (stamp : string)
  (elapsed : PrimFloat.float) : dict :=
  [("collected_at", VStr stamp);
   ("usb_entries_length", py_len (out (run_result host usb_query 40 k)));
   ("pnp_entries_length", VInt 0);
   ("netadapter_entries_length", VInt 0);
   ("elapsed_seconds", VFloat elapsed)].

(* ================================================================== *)
(** ** Vocabulary of the statements *)

Definition domain_names : list string :=
  ["system"; "hardware"; "firmware"; "storage"; "peripherals"].

(** The entry of domain [m] in an aggregate report. *)
Definition domain_entry (report : dict) (m : string) : dict :=
  match dict_get report m with
  | Some (VDict entry) => entry
  | _ => []
  end.

Definition result_file (host : Host) : string :=
  path_join host (RESULT_DIR host) "results_of_all_files.json".

(** The directories [ensure_dirs] asks for can be created once [k]
    commands have run. *)
Definition dirs_ok (host : Host) (k : nat) : Prop :=
  Forall (fun d => os_makedirs host k (path_join host (ROOT host) d) = None)
         (FOLDERS ++ ["result"; "logs"])%list.

(** A summary carries its elapsed time as a float. *)
Definition timed (summary : dict) : Prop :=
  exists q, dict_get summary "elapsed_seconds" = Some (VFloat q).

(** An entry of the aggregate report: a summary with its elapsed time,
    or one without the field, as the error placeholder is. *)
Definition entry_ok (res : dict) : Prop :=
  timed res \/ dict_get res "elapsed_seconds" = None.

(** The elapsed time an entry reports, if it reports one. *)
Definition elapsed_time (entry : dict) : option PrimFloat.float :=
  match dict_get entry "elapsed_seconds" with
  | Some (VFloat x) => Some x
  | _ => None
  end.

(** The total as the specification words it: the elapsed times added
    up from 0 in domain order, a missing time counting as zero.  [acc]
    is the sum so far: nothing while it is still the integer 0, which
    Python turns into 0.0 when it meets the first float. *)
Fixpoint claimed_total (acc : option PrimFloat.float)
  (times : list (option PrimFloat.float)) : pyval :=
  match times with
  | [] =>
      match acc with
      | Some total => VFloat total
      | None => VInt 0
      end
  | time :: rest =>
      claimed_total
        match acc, time with
        | None, None => None
        | None, Some x => Some (PrimFloat.add PrimFloat.zero x)
        | Some a, None => Some (PrimFloat.add a PrimFloat.zero)
        | Some a, Some x => Some (PrimFloat.add a x)
        end
        rest
  end.

(** The running sum of [sum]: the integer 0 until the first float. *)
Definition running (acc : option PrimFloat.float) : pyval :=
  match acc with
  | Some a => VFloat a
  | None => VInt 0
  end.

(** Whenever [m] returns, its value satisfies [P]. *)
Definition yields {A} (P : A -> Prop) (m : M A) : Prop :=
  forall w, match fst (m w) with Ok a => P a | Raise _ => True end.


(** A parsed field: key and value are text without surrounding
    whitespace. *)
Definition stripped_entry (kv : string * pyval) : Prop :=
  PyStr.strip (fst kv) = fst kv /\
  exists s, snd kv = VStr s /\ PyStr.strip s = s.

(** The line [Logger._append] adds for a message logged at the
    [k]-th clock reading. *)
Definition log_line (host : Host) (level : string) (k : nat) (msg : string)
  : string :=
  let ts := utc_iso (clock host k) ++ "Z" in
  "[" ++ level ++ "] " ++ ts ++ " " ++ msg.

(** The run's directory names, in the order [ensure_dirs] asks for
    them. *)
Definition run_dirs : list string := (FOLDERS ++ ["result"; "logs"])%list.

(** A machine like [host] on which the directories in [denied] cannot
    be created. *)
Definition without_dirs (host : Host) (denied : list string) : Host :=
  {| ROOT := ROOT host;
     os_sep := os_sep host;
     subprocess_run := subprocess_run host;
     clock := clock host;
     path_exists := path_exists host;
     os_remove := os_remove host;
     file_read := file_read host;
     os_makedirs := fun k p =>
       if existsb (String.eqb p) denied
       then Some ("[Errno 13] Permission denied: '" ++ p ++ "'")
       else os_makedirs host k p;
     file_write := file_write host;
     shutil_which := shutil_which host;
     psutil := psutil host;
     IsUserAnAdmin := IsUserAnAdmin host |}.

(** The logs directory cannot be created. *)
Definition no_logs_dir_host : Host :=
  without_dirs sample_host ["/opt/jettox/logs"].

(** *** What [collect_hardware] builds *)

(** The part of the hardware summary that comes from the four WMIC
    queries, the collector starting after [k] commands. *)
Definition hardware_sections (host : Host) (k : nat) (stamp : string) : dict :=
  let video :=
    run_result host "wmic path win32_VideoController get /format:list" 20
               (3 + k) in
  [("collected_at", VStr stamp);
   ("cpu",
    VDict (parse_wmic (out (run_result host "wmic cpu get /format:list" 20 k))));
   ("bios",
    VDict (parse_wmic
             (out (run_result host "wmic bios get /format:list" 20 (1 + k)))));
   ("baseboard",
    VDict (parse_wmic
             (out (run_result host "wmic baseboard get /format:list" 20
                              (2 + k)))));
   ("video", VDict (parse_wmic (out video)));
   ("video_raw_length", py_len (out video))].

(** The metrics block: each call of the library either adds its
    fields or, by raising, ends the block with [psutil_error]; fields
    added before the failing call stay. *)
Definition hardware_metrics (ps : Psutil) (k : nat) (summary : dict) : dict :=
  let failed (summary : dict) := dict_set summary "psutil_error" (VStr "Error") in
  match cpu_count ps k true with
  | None => failed summary
  | Some logical =>
      let summary := dict_set summary "logical_cpus" (int_or_none logical) in
      match cpu_count ps k false with
      | None => failed summary
      | Some physical =>
          let summary :=
            dict_set summary "physical_cpus" (int_or_none physical) in
          match cpu_freq ps k with
          | None => failed summary
          | Some cf =>
              let summary :=
                match cf with
                | Some cf => dict_set summary "cpu_freq_mhz" (cpu_freq_value cf)
                | None => summary
                end in
              match virtual_memory ps k with
              | None => failed summary
              | Some vm =>
                  dict_set
                    (dict_set summary "memory_total_bytes" (VInt (vm_total vm)))
                    "memory_available_bytes" (VInt (vm_available vm))
              end
          end
      end
  end.

Definition hardware_summary (host : Host) (k : nat) (stamp : string)
  (elapsed : PrimFloat.float) : dict :=
  let summary := hardware_sections host k stamp in
  let summary :=
    match psutil host with
    | Some ps => hardware_metrics ps (4 + k) summary
    | None => summary
    end in
  dict_set summary "elapsed_seconds" (VFloat elapsed).

Definition hardware_raw_blocks (host : Host) (k : nat) : list string :=
  let blocks :=
    [ "### wmic_cpu" ++ PyStr.nl ++
      transcript (run_result host "wmic cpu get /format:list" 20 k);
      "### wmic_bios" ++ PyStr.nl ++
      transcript (run_result host "wmic bios get /format:list" 20 (1 + k));
      "### wmic_baseboard" ++ PyStr.nl ++
      transcript (run_result host "wmic baseboard get /format:list" 20 (2 + k));
      "### wmic_video" ++ PyStr.nl ++
      transcript
        (run_result host "wmic path win32_VideoController get /format:list" 20
                    (3 + k)) ] in
  match psutil host with
  | Some _ => blocks
  | None => push blocks ("### psutil not available" ++ PyStr.nl)
  end.

(** The names of the metric fields. *)
Definition metric_keys : list string :=
  ["logical_cpus"; "physical_cpus"; "cpu_freq_mhz"; "memory_total_bytes";
   "memory_available_bytes"; "psutil_error"].

(** A metrics library that counts the processors and the memory and
    raises when asked for the processor frequency; its second
    partition cannot be measured. *)
Definition flaky_metrics : Psutil :=
  {| cpu_count := fun _ logical => Some (Some (if logical then 8%Z else 4%Z));
     cpu_freq := fun _ => None;
     virtual_memory := fun _ =>
       Some {| vm_total := 17179869184%Z; vm_available := 8589934592%Z |};
     disk_partitions := fun _ _ =>
       Some [ {| device := "C:\"; mountpoint := "C:\"; fstype := "NTFS" |};
              {| device := "D:\"; mountpoint := "D:\"; fstype := "" |} ];
     disk_usage := fun _ m =>
       if String.eqb m "C:\"
       then Some {| du_total := 512%Z; du_used := 128%Z; du_free := 384%Z;
                    du_percent := nearest_float 25 |}
       else None |}.

Definition flaky_metrics_host : Host :=
  scripted_host sample_script [] no_files [] (Some flaky_metrics).

(** *** What [collect_storage] builds *)

(** [line.split()[0]] for a line that holds a word. *)
Definition first_word (line : string) : string :=
  hd EmptyString (PyStr.split_ws line).

(** The transcripts of the health queries, one for each device, the
    first query being the command run after [k] others. *)
Fixpoint health_blocks (host : Host) (k : nat) (devs : list string)
  : list string :=
  match devs with
  | [] => []
  | dev :: rest =>
      ("### smartctl " ++ dev ++ PyStr.nl ++
       transcript (run_result host ("smartctl -H " ++ dev) 20 k)) ::
      health_blocks host (S k) rest
  end.

(** The three disk listings every run records. *)
Definition disk_listing_blocks (host : Host) (k : nat) : list string :=
  [ "### wmic_diskdrive" ++ PyStr.nl ++
    transcript (run_result host "wmic diskdrive get /format:list" 30 k);
    "### get_physicaldisk" ++ PyStr.nl ++
    transcript
      (run_result host
         ("powershell -Command " ++ dq ++ "Get-PhysicalDisk | Format-List *" ++ dq)
         30 (1 + k));
    "### get_partition" ++ PyStr.nl ++
    transcript
      (run_result host
         ("powershell -Command " ++ dq ++ "Get-Partition | Format-List *" ++ dq)
         30 (2 + k)) ].

(** The lines of the device scan run after [k] commands. *)
Definition scan_lines (host : Host) (k : nat) : list string :=
  PyStr.splitlines (out (run_result host "smartctl --scan" 20 k)).

(** The entries of the partition sample: each partition with its
    usage, or nothing when one of the usage calls raises. *)
Fixpoint partition_entries (ps : Psutil) (k : nat) (parts : list Partition)
  : option (list pyval) :=
  match parts with
  | [] => Some []
  | p :: rest =>
      match disk_usage ps k (mountpoint p) with
      | None => None
      | Some u =>
          match partition_entries ps k rest with
          | Some entries => Some (partition_entry p u :: entries)
          | None => None
          end
      end
  end.

(** The partition sample as a whole: the listing call and every usage
    call must succeed. *)
Definition partitions_sample (ps : Psutil) (k : nat) : option (list pyval) :=
  match disk_partitions ps k true with
  | Some parts => partition_entries ps k parts
  | None => None
  end.

(** The storage summary, the metrics being read after [k] commands. *)
Definition storage_summary (host : Host) (k : nat) (stamp : string)
  (elapsed : PrimFloat.float) : dict :=
  let summary := [("collected_at", VStr stamp)] in
  let summary :=
    match psutil host with
    | Some ps =>
        match partitions_sample ps k with
        | Some sample => dict_set summary "partitions_sample" (VList sample)
        | None => dict_set summary "partitions_error" (VStr "Error")
        end
    | None => summary
    end in
  dict_set summary "elapsed_seconds" (VFloat elapsed).

(** The disk-health tool is installed and its scan names two devices. *)
Definition two_disks_host : Host :=
  scripted_host
    [("smartctl --scan",
      Exited 0 ("/dev/sda -d scsi # /dev/sda, SCSI device" ++ PyStr.nl ++
                "  /dev/nvme0 -d nvme" ++ PyStr.nl) "");
     ("smartctl -H /dev/sda", Exited 0 "PASSED" "");
     ("smartctl -H /dev/nvme0", TimedOut None)]
    ["smartctl"] no_files [] (Some flaky_metrics).

(** The loop over the scan's lines, as [collect_storage] has it. *)
Definition scan_loop (host : Host) (scan : list string)
  (state : option CommandResult * list string)
  : M (option CommandResult * list string) :=
  for_each scan
    (fun line '(r, raw_blocks) =>
       dev <- list_index (PyStr.split_ws line) 0 ;;
       if negb (PyStr.is_empty dev) then
         r <- run host ("smartctl -H " ++ dev) 20 ;;
         ret (Some r,
              push raw_blocks
                ("### smartctl " ++ dev ++ PyStr.nl ++ transcript r))
       else ret (r, raw_blocks))
    state.

(** *** The transcripts of the system and peripherals collectors *)

(** The six blocks [collect_system] records when it starts after [k]
    commands. *)
Definition system_raw_blocks (host : Host) (k : nat) : list string :=
  [ "### systeminfo" ++ PyStr.nl ++
    transcript (run_result host "systeminfo" 30 k);
    "### tasklist" ++ PyStr.nl ++
    transcript (run_result host "tasklist /V /FO CSV" 30 (1 + k));
    "### wevtutil_system" ++ PyStr.nl ++
    transcript (run_result host "wevtutil qe System /c:200 /f:text" 40 (2 + k));
    "### wevtutil_app" ++ PyStr.nl ++
    transcript
      (run_result host "wevtutil qe Application /c:200 /f:text" 40 (3 + k));
    "### driverquery" ++ PyStr.nl ++
    transcript (run_result host "driverquery /v /fo list" 40 (4 + k));
    "### wmic_service" ++ PyStr.nl ++
    transcript (run_result host "wmic service get /format:list" 40 (5 + k)) ].

(** The five blocks [collect_peripherals] records when it starts after
    [k] commands. *)
Definition peripherals_raw_blocks (host : Host) (k : nat) : list string :=
  [ "### USB" ++ PyStr.nl ++ transcript (run_result host usb_query 40 k);
    "### get_pnp_device" ++ PyStr.nl ++
    transcript
      (run_result host
         ("powershell -Command " ++ dq ++
          "Get-PnpDevice -PresentOnly | Format-List -Force" ++ dq)
         40 (1 + k));
    "### get_netadapter" ++ PyStr.nl ++
    transcript
      (run_result host
         ("powershell -Command " ++ dq ++ "Get-NetAdapter | Format-List *" ++ dq)
         30 (2 + k));
    "### wmic_logicaldevice" ++ PyStr.nl ++
    transcript
      (run_result host "wmic path CIM_LogicalDevice get /format:list" 30
                  (3 + k));
    "### Bluetooth" ++ PyStr.nl ++
    transcript (run_result host bluetooth_query 20 (4 + k)) ].

(** *** Vocabulary for what every collector keeps *)

(** A computation that writes no file. *)
Definition quiet {A} (m : M A) : Prop :=
  forall w, written (snd (m w)) = written w.

(** The summary file of a domain. *)
Definition summary_file (host : Host) (folder : string) : string :=
  path_join host (path_join host (ROOT host) folder) "summary.json".

(** What a collector leaves behind in [folder]: when it returns, the
    summary it returns and a transcript; when it raises, nothing, or
    the summary alone. *)
Definition persists (host : Host) (folder : string) (m : M dict) : Prop :=
  forall w,
    match m w with
    | (Ok summary, w') =>
        exists raw_blocks,
          written w'
          = (written w ++ domain_artifacts host folder summary raw_blocks)%list
    | (Raise _, w') =>
        written w' = written w \/
        exists summary,
          written w'
          = (written w ++
             [(summary_file host folder, JsonDoc (VDict summary))])%list
    end.

(** *** The aggregate report *)

(** The entry [main] records for a collector: the summary it
    returned, or the error placeholder for the exception it raised. *)
Definition outcome_entry (o : Outcome dict) : dict :=
  match o with
  | Ok res => res
  | Raise e => [("error", VStr (str_exn e))]
  end.

(** The state after the collectors [fns] have run one after the other,
    whether they returned or raised. *)
Definition after (fns : list (M dict)) (w : World) : World :=
  fold_left (fun w fn => snd (fn w)) fns w.

Definition report_keys : list string :=
  ["collected_at"; "local_start"; "admin"; "system"; "hardware"; "firmware";
   "storage"; "peripherals"; "total_elapsed_seconds"].

(** *** The log file *)

(** Text without a line boundary. *)
Fixpoint single_line (s : string) : bool :=
  match s with
  | EmptyString => true
  | String c s' => negb (PyStr.is_linebreak c) && single_line s'
  end.

(** *** Hosts with a side file that is in the way *)

(** A machine like [host] on which no file can be removed. *)
Definition without_remove (host : Host) : Host :=
  {| ROOT := ROOT host;
     os_sep := os_sep host;
     subprocess_run := subprocess_run host;
     clock := clock host;
     path_exists := path_exists host;
     os_remove := fun _ p => Some ("[WinError 32] file in use: '" ++ p ++ "'");
     file_read := file_read host;
     os_makedirs := os_makedirs host;
     file_write := file_write host;
     shutil_which := shutil_which host;
     psutil := psutil host;
     IsUserAnAdmin := IsUserAnAdmin host |}.

(** A side file of an earlier run is there from the start and cannot
    be removed. *)
Definition stale_side_file_host : Host :=
  without_remove
    (scripted_host sample_script []
       (fun _ p =>
          if String.eqb p "/opt/jettox/dxdiag_output.txt"
          then Some "System Information: OLD-PC"
          else None)
       [] None).

(** The side file exists after the diagnostic tool ran but cannot be
    read. *)
Definition unreadable_side_file_host : Host :=
  {| ROOT := "/opt/jettox";
     os_sep := "/";
     subprocess_run := subprocess_run sample_host;
     clock := steady_clock;
     path_exists := fun k p =>
       (4 <=? k)%nat && String.eqb p "/opt/jettox/dxdiag_output.txt";
     os_remove := fun _ _ => None;
     file_read := fun _ _ => None;
     os_makedirs := fun _ _ => None;
     file_write := fun _ _ => None;
     shutil_which := fun _ _ => false;
     psutil := None;
     IsUserAnAdmin := Some true |}.

(* ================================================================== *)
(** ** Text lemmas *)

Lemma startswith_app (s t : string) : PyStr.startswith s (s ++ t) = true.
Proof.
  induction s as [|c s IH]; simpl.
  - reflexivity.
  - rewrite Ascii.eqb_refl. exact IH.
Qed.

Lemma contains_startswith (sub s : string) :
  PyStr.startswith sub s = true -> PyStr.contains sub s = true.
Proof.
  intros H. destruct s; simpl in *; rewrite H; reflexivity.
Qed.

Lemma contains_app (pre sub post : string) :
  PyStr.contains sub (pre ++ sub ++ post) = true.
Proof.
  induction pre as [|c pre IH].
  - simpl. apply contains_startswith, startswith_app.
  - change ((String c pre ++ sub ++ post)%string)
      with (String c (pre ++ sub ++ post)%string).
    cbn [PyStr.contains]. rewrite IH. apply orb_true_r.
Qed.

(** A line that contains the separator splits in two, so the unpacking
    [k, v = line.split(sep, 1)] of the parsers cannot fail. *)
Lemma split1_of_contains (sep s : string) :
  PyStr.contains sep s = true -> exists k v, PyStr.split1 sep s = [k; v].
Proof.
  unfold PyStr.split1.
  induction s as [|c s IH]; cbn [PyStr.contains PyStr.partition]; intros H.
  - rewrite orb_false_r in H. rewrite H. eexists _, _. reflexivity.
  - destruct (PyStr.startswith sep (String c s)).
    + eexists _, _. reflexivity.
    + simpl in H. destruct (IH H) as (k & v & Hkv).
      destruct (PyStr.partition sep s) as [[a b]|].
      * eexists _, _. reflexivity.
      * discriminate Hkv.
Qed.

(** The text operations on a few inputs. *)
Example splitlines_sample :
  PyStr.splitlines
    ("a" ++ PyStr.nl ++ PyStr.nl ++ "b" ++ String PyStr.CR PyStr.nl ++ "c" ++
     PyStr.nl)
  = ["a"; ""; "b"; "c"].
Proof. reflexivity. Qed.

Example count_sample :
  PyStr.count "aa" "aaaaa" = 2%nat /\
  PyStr.count "Driver Name" "Driver Name: ACPI Driver Name: disk" = 2%nat.
Proof. split; reflexivity. Qed.

Example split_sample :
  PyStr.split1 "=" "Name = a=b" = ["Name "; " a=b"] /\
  PyStr.split_ws "  /dev/sda  -d scsi " = ["/dev/sda"; "-d"; "scsi"] /\
  PyStr.split_ws "   " = [] /\
  PyStr.strip "  LAB-PC " = "LAB-PC".
Proof. repeat split; reflexivity. Qed.

Example parse_wmic_sample :
  parse_wmic ("Manufacturer=Dell Inc." ++ PyStr.nl ++ "no separator" ++
              PyStr.nl ++ " Version = 1 " ++ PyStr.nl ++ "Version=2")
  = [("Manufacturer", VStr "Dell Inc."); ("Version", VStr "2")].
Proof. reflexivity. Qed.

(** The CSV reader on ragged rows, an empty line and quoted fields. *)
Example csv_reader_sample :
  Csv.reader_list
    ["a,b,c"; "1,2"; ""; dq ++ "x,y" ++ dq ++ ",z";
     dq ++ "say " ++ dq ++ dq ++ "hi" ++ dq ++ dq ++ dq ++ ",2"; "a,"]
  = Some [["a"; "b"; "c"]; ["1"; "2"]; []; ["x,y"; "z"];
          ["say " ++ dq ++ "hi" ++ dq; "2"]; ["a"; ""]].
Proof. reflexivity. Qed.

(* ================================================================== *)
(** ** Dictionary lemmas *)

Lemma dict_get_set_same {V} (d : list (string * V)) (k : string) (v : V) :
  dict_get (dict_set d k v) k = Some v.
Proof.
  induction d as [|[k' v'] d IH]; simpl.
  - rewrite String.eqb_refl. reflexivity.
  - destruct (String.eqb k' k) eqn:E; simpl; rewrite E; [reflexivity|exact IH].
Qed.

Lemma dict_get_set_other {V} (d : list (string * V)) (k k' : string) (v : V) :
  k <> k' -> dict_get (dict_set d k v) k' = dict_get d k'.
Proof.
  intros Hne. induction d as [|[k0 v0] d IH]; simpl.
  - destruct (String.eqb k k') eqn:E;
      [apply String.eqb_eq in E; tauto|reflexivity].
  - destruct (String.eqb k0 k) eqn:E; simpl.
    + apply String.eqb_eq in E. subst k0.
      destruct (String.eqb k k') eqn:E';
        [apply String.eqb_eq in E'; tauto|reflexivity].
    + rewrite IH. reflexivity.
Qed.

Lemma dict_set_length {V} (d : list (string * V)) (k : string) (v : V) :
  (List.length (dict_set d k v) <= S (List.length d))%nat.
Proof.
  induction d as [|[k' v'] d IH]; simpl.
  - lia.
  - destruct (String.eqb k' k); simpl; lia.
Qed.

Lemma dict_set_fresh {V} (d : list (string * V)) (k : string) (v : V) :
  ~ In k (map fst d) -> dict_set d k v = push d (k, v).
Proof.
  unfold push. induction d as [|[k' v'] d IH]; simpl; intros Hk.
  - reflexivity.
  - destruct (String.eqb k' k) eqn:E.
    + apply String.eqb_eq in E. tauto.
    + rewrite IH by tauto. reflexivity.
Qed.

Lemma fold_dict_set_length {V} (pairs acc : list (string * V)) :
  (List.length (fold_left (fun d kv => dict_set d (fst kv) (snd kv)) pairs acc)
   <= List.length acc + List.length pairs)%nat.
Proof.
  revert acc. induction pairs as [|[k v] pairs IH]; intros acc; simpl.
  - lia.
  - specialize (IH (dict_set acc k v)).
    pose proof (dict_set_length acc k v). lia.
Qed.

Lemma fold_dict_set_fresh {V} (pairs acc : list (string * V)) :
  NoDup (map fst acc ++ map fst pairs)%list ->
  fold_left (fun d kv => dict_set d (fst kv) (snd kv)) pairs acc
  = (acc ++ pairs)%list.
Proof.
  revert acc. induction pairs as [|[k v] pairs IH]; intros acc Hnd; simpl.
  - rewrite app_nil_r. reflexivity.
  - simpl in Hnd.
    rewrite dict_set_fresh.
    + unfold push. rewrite IH.
      * rewrite <- app_assoc. reflexivity.
      * rewrite map_app, <- app_assoc. exact Hnd.
    + apply NoDup_remove_2 in Hnd. intros Hin. apply Hnd.
      apply in_or_app. left. exact Hin.
Qed.

Lemma combine_keys_NoDup {B} (ks : list string) (vs : list B) :
  NoDup ks -> NoDup (map fst (combine ks vs)).
Proof.
  revert vs. induction ks as [|k ks IH]; intros vs Hnd; simpl.
  - constructor.
  - destruct vs as [|v vs]; simpl.
    + constructor.
    + inversion Hnd as [|? ? Hk Hks]; subst. constructor.
      * intros Hin. apply Hk. apply in_map_iff in Hin.
        destruct Hin as [[k' v'] [Heq Hin]]. simpl in Heq. subst k'.
        eapply in_combine_l. exact Hin.
      * apply IH. exact Hks.
Qed.

(** With distinct header cells, [dict(zip(header, row))] pairs cell [i]
    of the header with cell [i] of the row, up to the shorter length. *)
Lemma dict_zip_positional (header row : list string) :
  NoDup header -> dict_zip header row = combine header (map VStr row).
Proof.
  intros Hnd. unfold dict_zip, dict_of_pairs.
  rewrite fold_dict_set_fresh.
  - reflexivity.
  - simpl. apply combine_keys_NoDup. exact Hnd.
Qed.

Lemma dict_zip_length (header row : list string) :
  (List.length (dict_zip header row)
   <= Nat.min (List.length header) (List.length row))%nat.
Proof.
  unfold dict_zip, dict_of_pairs.
  pose proof (fold_dict_set_length (combine header (map VStr row)) []) as H.
  rewrite length_combine, length_map in H. simpl in H. exact H.
Qed.

(** Lifting the keys of [keys] that [parsed] has into a dictionary. *)
Lemma lifted_fields (parsed init : dict) (keys : list string) (key : string) :
  dict_get
    (fold_left
       (fun summary k =>
          match dict_get parsed k with
          | Some v => dict_set summary k v
          | None => summary
          end) keys init) key
  = if existsb (String.eqb key) keys
    then match dict_get parsed key with
         | Some v => Some v
         | None => dict_get init key
         end
    else dict_get init key.
Proof.
  revert init. induction keys as [|k keys IH]; intros init; simpl.
  - reflexivity.
  - rewrite IH. destruct (String.eqb key k) eqn:E.
    + apply String.eqb_eq in E. subst k. simpl.
      destruct (dict_get parsed key) as [v|] eqn:Hv.
      * rewrite dict_get_set_same. destruct (existsb _ keys); reflexivity.
      * destruct (existsb _ keys); reflexivity.
    + simpl. assert (Hne : k <> key).
      { intros ->. rewrite String.eqb_refl in E. discriminate. }
      destruct (dict_get parsed k) as [v|].
      * rewrite (dict_get_set_other init k key v Hne). reflexivity.
      * reflexivity.
Qed.

(* ================================================================== *)
(** ** Numbers *)

Lemma float_of_int_zero : float_of_int 0 = Some PrimFloat.zero.
Proof. reflexivity. Qed.

(** [sum] over the elapsed times of report entries never raises, and
    is the total as the specification words it. *)
Lemma py_sum_from (entries : list dict) (acc : option PrimFloat.float) :
  Forall entry_ok entries ->
  fold_left py_sum_step (map elapsed_or_zero entries) (Added (running acc))
  = Added (claimed_total acc (map elapsed_time entries)).
Proof.
  revert acc. induction entries as [|e entries IH]; intros acc Hall.
  - destruct acc; reflexivity.
  - inversion Hall as [|? ? He Hrest]; subst.
    cbn [map fold_left claimed_total py_sum_step].
    unfold elapsed_or_zero, elapsed_time.
    destruct He as [[x Hx]|Hnone].
    + rewrite Hx. destruct acc as [a|]; cbn [running].
      * apply (IH (Some (PrimFloat.add a x)) Hrest).
      * apply (IH (Some (PrimFloat.add PrimFloat.zero x)) Hrest).
    + rewrite Hnone. destruct acc as [a|]; cbn [running].
      * apply (IH (Some (PrimFloat.add a PrimFloat.zero)) Hrest).
      * apply (IH None Hrest).
Qed.

Lemma py_sum_total (entries : list dict) :
  Forall entry_ok entries ->
  py_sum (map elapsed_or_zero entries)
  = Added (claimed_total None (map elapsed_time entries)).
Proof. apply (py_sum_from entries None). Qed.

(* ================================================================== *)
(** ** Stepping through a computation *)

Lemma bind_step {A B} (m : M A) (f : A -> M B) (w : World) (a : A) :
  fst (m w) = Ok a -> bind m f w = f a (snd (m w)).
Proof.
  unfold bind. destruct (m w) as [[a'|e] w']; simpl; intros H.
  - injection H as ->. reflexivity.
  - discriminate.
Qed.

Lemma bind_eq {A B} (m : M A) (f : A -> M B) (w w' : World) (a : A) :
  m w = (Ok a, w') -> bind m f w = f a w'.
Proof. intros H. unfold bind. rewrite H. reflexivity. Qed.

Lemma bind_assoc_at {A B C} (m : M A) (f : A -> M B) (g : B -> M C)
  (w : World) :
  bind (bind m f) g w = bind m (fun a => bind (f a) g) w.
Proof. unfold bind. destruct (m w) as [[a|e] w']; reflexivity. Qed.

Lemma yields_bind {A B} (P : B -> Prop) (m : M A) (f : A -> M B) :
  (forall a, yields P (f a)) -> yields P (bind m f).
Proof.
  intros H w. unfold bind. destruct (m w) as [[a|e] w'].
  - apply H.
  - exact I.
Qed.

Lemma yields_ret {A} (P : A -> Prop) (a : A) : P a -> yields P (ret a).
Proof. intros H w. exact H. Qed.

(** A [try] block of one statement that only computes. *)
Lemma try_steps_pure {X} (o : option X) (e : exn) (g : dict -> X -> dict)
  (h : dict -> dict) (d : dict) (w : World) :
  try_steps [fun d => bind (or_raise o e) (fun x => ret (g d x))]
            (fun d => ret (h d)) d w
  = (Ok (match o with Some x => g d x | None => h d end), w).
Proof. destruct o; reflexivity. Qed.

Section Effects.

Variable host : Host.

Lemma logger_append_fst (level msg : string) (w : World) :
  fst (logger_append host level msg w) = Ok tt.
Proof. reflexivity. Qed.

Lemma logger_append_ncalls (level msg : string) (w : World) :
  ncalls (snd (logger_append host level msg w)) = ncalls w.
Proof. reflexivity. Qed.

Lemma logger_info_fst (msg : string) (w : World) :
  fst (logger_info host msg w) = Ok tt.
Proof. reflexivity. Qed.

Lemma logger_info_ncalls (msg : string) (w : World) :
  ncalls (snd (logger_info host msg w)) = ncalls w.
Proof. reflexivity. Qed.

Lemma logger_info_written (msg : string) (w : World) :
  written (snd (logger_info host msg w)) = written w.
Proof. reflexivity. Qed.

Lemma perf_counter_fst (w : World) :
  fst (perf_counter host w) = Ok (perf (clock host (nclock w))).
Proof. reflexivity. Qed.

Lemma perf_counter_ncalls (w : World) :
  ncalls (snd (perf_counter host w)) = ncalls w.
Proof. reflexivity. Qed.

Lemma perf_counter_written (w : World) :
  written (snd (perf_counter host w)) = written w.
Proof. reflexivity. Qed.

Lemma now_utc_stamp_fst (w : World) :
  fst (now_utc_stamp host w) = Ok (utc_stamp (clock host (nclock w))).
Proof. reflexivity. Qed.

Lemma now_utc_stamp_ncalls (w : World) :
  ncalls (snd (now_utc_stamp host w)) = ncalls w.
Proof. reflexivity. Qed.

Lemma now_utc_stamp_written (w : World) :
  written (snd (now_utc_stamp host w)) = written w.
Proof. reflexivity. Qed.

Lemma now_local_iso_fst (w : World) :
  fst (now_local_iso host w) = Ok (local_iso (clock host (nclock w))).
Proof. reflexivity. Qed.

Lemma now_local_logname_fst (w : World) :
  fst (now_local_logname host w) = Ok (local_logname (clock host (nclock w))).
Proof. reflexivity. Qed.

(** [run] never raises: its result is [run_result] of the call's
    outcome, and it counts as one more command. *)
Lemma run_fst (cmd : string) (timeout : Z) (w : World) :
  fst (run host cmd timeout w) = Ok (run_result host cmd timeout (ncalls w)).
Proof.
  unfold run, run_result, logger_info, logger_warn, logger_error.
  rewrite (bind_step _ _ _ tt (logger_append_fst _ _ _)).
  unfold try_except, bind, subprocess_run_call.
  rewrite logger_append_ncalls.
  destruct (subprocess_run host (ncalls w) cmd timeout); reflexivity.
Qed.

Lemma run_ncalls (cmd : string) (timeout : Z) (w : World) :
  ncalls (snd (run host cmd timeout w)) = S (ncalls w).
Proof.
  unfold run, logger_info, logger_warn, logger_error.
  rewrite (bind_step _ _ _ tt (logger_append_fst _ _ _)).
  unfold try_except, bind, subprocess_run_call.
  rewrite logger_append_ncalls.
  destruct (subprocess_run host (ncalls w) cmd timeout); reflexivity.
Qed.

Lemma run_written (cmd : string) (timeout : Z) (w : World) :
  written (snd (run host cmd timeout w)) = written w.
Proof.
  unfold run, logger_info, logger_warn, logger_error.
  rewrite (bind_step _ _ _ tt (logger_append_fst _ _ _)).
  unfold try_except, bind, subprocess_run_call.
  destruct (subprocess_run host _ cmd timeout); reflexivity.
Qed.

Lemma safe_read_file_eq (path : string) (w : World) :
  safe_read_file host path w
  = (Ok (match file_read host (ncalls w) path with
         | Some text => text
         | None => "<error reading " ++ path ++ ">"
         end), w).
Proof.
  unfold safe_read_file, try_except, read_call.
  destruct (file_read host (ncalls w) path); reflexivity.
Qed.

Lemma write_call_ok (path : string) (content : Artifact) (w : World) :
  file_write host (ncalls w) path = None ->
  fst (write_call host path content w) = Ok tt /\
  written (snd (write_call host path content w))
  = push (written w) (path, content).
Proof. intros H. unfold write_call. rewrite H. split; reflexivity. Qed.

Lemma write_summary_and_raw_ok (folder : string) (summary : dict)
  (raw_blocks : list string) (w : World) :
  persist_ok host (ncalls w) folder ->
  fst (write_summary_and_raw host folder summary raw_blocks w) = Ok tt /\
  written (snd (write_summary_and_raw host folder summary raw_blocks w))
  = (written w ++ domain_artifacts host folder summary raw_blocks)%list.
Proof.
  intros (Hd & Hs & Hr).
  unfold write_summary_and_raw, bind, makedirs_call, write_call.
  rewrite Hd. cbn [ncalls]. rewrite Hs. cbn [ncalls]. rewrite Hr.
  cbn [fst snd written]. split; [reflexivity|].
  unfold push, domain_artifacts. rewrite <- app_assoc. reflexivity.
Qed.

Lemma bind_write (folder : string) (summary : dict) (raw_blocks : list string)
  {B} (f : unit -> M B) (w : World) :
  persist_ok host (ncalls w) folder ->
  bind (write_summary_and_raw host folder summary raw_blocks) f w
  = f tt (snd (write_summary_and_raw host folder summary raw_blocks w)).
Proof.
  intros Hp. apply bind_step.
  apply (write_summary_and_raw_ok folder summary raw_blocks w Hp).
Qed.

Lemma write_summary_and_raw_written (folder : string) (summary : dict)
  (raw_blocks : list string) (w : World) :
  persist_ok host (ncalls w) folder ->
  written (snd (write_summary_and_raw host folder summary raw_blocks w))
  = (written w ++ domain_artifacts host folder summary raw_blocks)%list.
Proof.
  intros Hp.
  apply (write_summary_and_raw_ok folder summary raw_blocks w Hp).
Qed.

Lemma bind_remove_if (path : string) (stale : bool) {B} (f : unit -> M B)
  (w : World) :
  (stale = true -> os_remove host (ncalls w) path = None) ->
  bind (if stale then remove_call host path else ret tt) f w = f tt w.
Proof.
  intros H. destruct stale.
  - unfold bind, remove_call. rewrite (H eq_refl). reflexivity.
  - reflexivity.
Qed.

Lemma bind_read_if (path : string) (present : bool) (other : string) {B}
  (f : string -> M B) (w : World) :
  bind (if present then safe_read_file host path else ret other) f w
  = f (if present
       then match file_read host (ncalls w) path with
            | Some text => text
            | None => "<error reading " ++ path ++ ">"
            end
       else other) w.
Proof.
  destruct present.
  - unfold bind. rewrite safe_read_file_eq. reflexivity.
  - reflexivity.
Qed.

Lemma bind_warn_if (b : bool) (msg : string) {B} (f : unit -> M B)
  (w : World) :
  bind (if b then logger_warn host msg else ret tt) f w
  = f tt (if b then snd (logger_warn host msg w) else w).
Proof. destruct b; reflexivity. Qed.

Lemma ensure_dirs_ok (w : World) :
  dirs_ok host (ncalls w) -> ensure_dirs host w = (Ok tt, w).
Proof.
  unfold dirs_ok, FOLDERS. cbn [app]. intros H.
  repeat match type of H with
         | Forall _ (_ :: _) =>
             let H1 := fresh "Hd" in
             apply Forall_cons_iff in H; destruct H as [H1 H]
         end.
  unfold ensure_dirs, RESULT_DIR, LOGS_DIR, FOLDERS. cbn [for_each].
  unfold bind, makedirs_call, ret.
  rewrite Hd, Hd0, Hd1, Hd2, Hd3, Hd4, Hd5. reflexivity.
Qed.

(** The log flush never raises and loses no written file. *)
Lemma dump_to_file_total (path : string) (w : World) :
  exists b, fst (dump_to_file host path w) = Ok b /\
            forall x, In x (written w) ->
                      In x (written (snd (dump_to_file host path w))).
Proof.
  unfold dump_to_file, try_except, bind, logger_lines, write_call.
  destruct (file_write host (ncalls w) path); cbn.
  - exists false. split; [reflexivity|]. auto.
  - exists true. split; [reflexivity|]. intros x Hx. unfold push.
    apply in_or_app. left. exact Hx.
Qed.

End Effects.

Create Rewrite HintDb ncalls.
Create Rewrite HintDb written.

#[local] Hint Rewrite run_ncalls perf_counter_ncalls now_utc_stamp_ncalls
  logger_info_ncalls : ncalls.
#[local] Hint Rewrite run_written perf_counter_written now_utc_stamp_written
  logger_info_written : written.

(** One statement of a collector: the effect at the head of the
    computation is replaced by its value and the world it leaves. *)
Ltac step :=
  lazymatch goal with
  | |- context [bind (bind ?m ?f) ?g ?w] => rewrite (bind_assoc_at m f g w)
  | |- context [bind (ret ?a) ?f ?w] => change (bind (ret a) f w) with (f a w)
  | |- context [bind (run ?h ?c ?t) ?f ?w] =>
      rewrite (bind_step (run h c t) f w _ (run_fst h c t w))
  | |- context [bind (perf_counter ?h) ?f ?w] =>
      rewrite (bind_step (perf_counter h) f w _ (perf_counter_fst h w))
  | |- context [bind (now_utc_stamp ?h) ?f ?w] =>
      rewrite (bind_step (now_utc_stamp h) f w _ (now_utc_stamp_fst h w))
  | |- context [bind (logger_info ?h ?m) ?f ?w] =>
      rewrite (bind_step (logger_info h m) f w _ (logger_info_fst h m w))
  | |- context [bind (dict_index ?d ?k) ?f ?w] =>
      let v := eval vm_compute in (dict_get d k) in
      match v with
      | Some ?x => change (bind (dict_index d k) f w) with (f x w)
      end
  | |- context [bind (local ?n (Some ?x)) ?f ?w] =>
      change (bind (local n (Some x)) f w) with (f x w)
  | |- context [bind (exists_call ?h ?p) ?f ?w] =>
      change (bind (exists_call h p) f w)
        with (f (path_exists h (ncalls w) p) w)
  | |- context [bind (if _ then safe_read_file ?h ?p else ret ?o) ?f ?w] =>
      rewrite (bind_read_if h p _ o f w)
  | |- context [bind (for_each (_ :: _) _ _) _ _] => cbn [for_each]
  | |- context [bind (for_each [] ?b ?s) ?f ?w] =>
      change (bind (for_each [] b s) f w) with (f s w)
  end;
  cbv beta iota zeta; autorewrite with ncalls.

(** Through a computation to its last statement, for [yields]. *)
Ltac through :=
  repeat first
    [ apply yields_bind; intro
    | match goal with
      | |- yields _ (match ?x with _ => _ end) => destruct x
      end
    | apply yields_ret; eexists; apply dict_get_set_same ].

(* ================================================================== *)
(** ** The command runner *)

(** C6. [run] always returns a result.  On a timeout it has [rc = -1],
    the output captured so far (empty when there is none) and an [err]
    that begins with TIMEOUT and contains the command line; on any other
    failure to execute it has [rc = -1], an empty [out] and the failure's
    description as [err]. *)
Theorem run_timeout_and_failure (host : Host) (cmd : string) (timeout : Z)
  (w : World) :
  exists r w',
    run host cmd timeout w = (Ok r, w') /\
    match subprocess_run host (ncalls w) cmd timeout with
    | TimedOut captured =>
        rc r = (-1)%Z /\
        out r = match captured with Some o => o | None => "" end /\
        PyStr.startswith "TIMEOUT" (err r) = true /\
        PyStr.contains cmd (err r) = true
    | NotRun reason =>
        rc r = (-1)%Z /\ out r = "" /\ err r = reason
    | Exited returncode stdout stderr =>
        rc r = returncode /\ out r = stdout /\ err r = stderr
    end.
Proof.
  exists (run_result host cmd timeout (ncalls w)),
         (snd (run host cmd timeout w)).
  split.
  - rewrite <- run_fst. apply surjective_pairing.
  - unfold run_result.
    destruct (subprocess_run host (ncalls w) cmd timeout) as [c o e|cap|reason];
      cbn [rc out err]; repeat split.
    apply (contains_app "TIMEOUT: Command '" cmd).
Qed.

(** C7, as the code has it.  [run] returns [rc = -1] in three cases
    only: a timeout, where [err] is a non-empty text beginning with
    TIMEOUT; any other failure to execute, where [err] is the failure's
    description; and a process that itself exits with status -1, where
    [err] is whatever the process wrote to its standard error. *)
Theorem run_rc_minus_one_cases (host : Host) (cmd : string) (timeout : Z)
  (w : World) :
  exists r w',
    run host cmd timeout w = (Ok r, w') /\
    (rc r = (-1)%Z <->
     (match subprocess_run host (ncalls w) cmd timeout with
      | Exited returncode _ _ => (returncode = -1)%Z
      | TimedOut _ | NotRun _ => True
      end)) /\
    match subprocess_run host (ncalls w) cmd timeout with
    | TimedOut _ =>
        err r <> "" /\ PyStr.startswith "TIMEOUT: " (err r) = true
    | NotRun reason => err r = reason
    | Exited _ _ stderr => err r = stderr
    end.
Proof.
  exists (run_result host cmd timeout (ncalls w)),
         (snd (run host cmd timeout w)).
  split.
  - rewrite <- run_fst. apply surjective_pairing.
  - unfold run_result.
    destruct (subprocess_run host (ncalls w) cmd timeout) as [c o e|cap|reason];
      cbn [rc out err]; repeat split; auto.
    discriminate.
Qed.

(** C7 as stated fails: a command that exits with status -1 and writes
    nothing gives [rc = -1] with an empty [err], although the call
    neither timed out nor failed to execute. *)
Lemma run_rc_minus_one_without_failure :
  ~ (forall (host : Host) (cmd : string) (timeout : Z) (w w' : World)
            (r : CommandResult),
        run host cmd timeout w = (Ok r, w') ->
        rc r = (-1)%Z ->
        ((exists captured,
             subprocess_run host (ncalls w) cmd timeout = TimedOut captured) \/
         (exists reason,
             subprocess_run host (ncalls w) cmd timeout = NotRun reason)) /\
        err r <> "").
Proof.
  intros H.
  destruct (H hangup_host "systeminfo" 30%Z initial_world
              (snd (run hangup_host "systeminfo" 30%Z initial_world))
              (mk_result (-1) "" "") eq_refl eq_refl) as [_ Herr].
  apply Herr. reflexivity.
Qed.

(** Nor is [err] non-empty after every failure to execute: it is the
    exception's text, which may be empty. *)
Example run_failure_with_empty_description :
  fst (run silent_failure_host "systeminfo" 30 initial_world)
  = Ok {| rc := -1; out := ""; err := "" |}.
Proof. reflexivity. Qed.

(* ================================================================== *)
(** ** The system collector *)

(** When its artifacts can be written the system collector returns,
    and its summary is [system_summary]. *)
Lemma collect_system_returns (host : Host) (w : World) :
  persist_ok host (6 + ncalls w) "system" ->
  exists stamp elapsed w',
    collect_system host w
    = (Ok (system_summary host (ncalls w) stamp elapsed), w').
Proof.
  intros Hp. unfold collect_system.
  do 6 step.
  erewrite bind_step by (rewrite try_steps_pure; reflexivity).
  rewrite try_steps_pure. cbn [snd]. cbv beta iota zeta.
  repeat step.
  rewrite bind_write by (autorewrite with ncalls; exact Hp).
  step.
  change (dict_has COMMANDS "driverquery") with true.
  change (dict_has COMMANDS "wmic_service") with true.
  cbv iota.
  unfold ret, system_summary. cbn [Nat.add].
  destruct (Csv.reader_list _); eexists _, _, _; reflexivity.
Qed.

(** C10. The system collector's [drivers_count] is the number of
    occurrences of "Driver Name" in the output of the service listing,
    the last command of its loop, and [services_length] is the length of
    that same output; the driver listing's output enters neither. *)
Theorem system_counts_from_service_listing (host : Host) (w : World) :
  persist_ok host (6 + ncalls w) "system" ->
  let service :=
    run_result host "wmic service get /format:list" 40 (5 + ncalls w) in
  exists s w',
    collect_system host w = (Ok s, w') /\
    dict_get s "drivers_count"
    = Some (VInt (Z.of_nat (PyStr.count "Driver Name" (out service)))) /\
    dict_get s "services_length"
    = Some (VInt (Z.of_nat (String.length (out service)))).
Proof.
  intros Hp service.
  destruct (collect_system_returns host w Hp) as (stamp & elapsed & w' & H).
  exists (system_summary host (ncalls w) stamp elapsed), w'.
  split; [exact H|].
  unfold system_summary.
  destruct (Csv.reader_list _); split; reflexivity.
Qed.

Lemma system_counts_from_service_listing_witness :
  persist_ok sample_host 6 "system" /\
  PyStr.count "Driver Name"
    (out (run_result sample_host "driverquery /v /fo list" 40 4)) = 3%nat /\
  exists s w',
    collect_system sample_host initial_world = (Ok s, w') /\
    dict_get s "drivers_count" = Some (VInt 0) /\
    dict_get s "services_length" = Some (VInt 27).
Proof.
  assert (Hp : persist_ok sample_host (6 + ncalls initial_world) "system")
    by (repeat split).
  split; [exact Hp|]. split; [reflexivity|].
  destruct (system_counts_from_service_listing sample_host initial_world Hp)
    as (s & w' & H & Hd & Hl).
  vm_compute in Hd. vm_compute in Hl.
  exists s, w'. split; [exact H|]. split; assumption.
Defined.

(** C5, as the code has it.  When the CSV reader yields a header row
    and [n] data rows, [process_sample] holds one mapping for each of
    the first 40 data rows, so [min n 40] of them; each is
    [dict(zip(header, row))], which has at most as many keys as the
    shorter of the two and, for distinct header cells, pairs them by
    position.  Without any row the sample is empty.  When the reader
    raises, the summary carries [process_sample_parse_error] and no
    sample, and the collector still returns. *)
Theorem tabular_parse_first_forty_rows (host : Host) (w : World) :
  persist_ok host (6 + ncalls w) "system" ->
  let text := out (run_result host "tasklist /V /FO CSV" 30 (1 + ncalls w)) in
  exists s w',
    collect_system host w = (Ok s, w') /\
    match Csv.reader_list (PyStr.splitlines text) with
    | Some [] =>
        dict_get s "process_sample" = Some (VList []) /\
        dict_get s "process_sample_parse_error" = None
    | Some (header :: data) =>
        let sample :=
          map (fun row => VDict (dict_zip header row)) (firstn 40 data) in
        dict_get s "process_sample" = Some (VList sample) /\
        dict_get s "process_sample_parse_error" = None /\
        List.length sample = Nat.min (List.length data) 40 /\
        forall row,
          In row (firstn 40 data) ->
          (List.length (dict_zip header row)
           <= Nat.min (List.length header) (List.length row))%nat /\
          (NoDup header ->
           dict_zip header row = combine header (map VStr row))
    | None =>
        dict_get s "process_sample_parse_error" = Some (VStr "CSV error") /\
        dict_get s "process_sample" = None
    end.
Proof.
  intros Hp text.
  destruct (collect_system_returns host w Hp) as (stamp & elapsed & w' & H).
  exists (system_summary host (ncalls w) stamp elapsed), w'.
  split; [exact H|].
  unfold system_summary. fold text.
  destruct (Csv.reader_list (PyStr.splitlines text)) as [[|header data]|].
  - split; reflexivity.
  - cbv zeta. repeat split.
    + rewrite length_map, length_firstn. apply Nat.min_comm.
    + apply dict_zip_length.
    + apply dict_zip_positional.
  - split; reflexivity.
Qed.

Lemma tabular_parse_first_forty_rows_witness :
  persist_ok sample_host 6 "system" /\
  exists s w',
    collect_system sample_host initial_world = (Ok s, w') /\
    dict_get s "process_sample"
    = Some (VList
        [VDict [("Image Name", VStr "System Idle Process"); ("PID", VStr "0");
                ("Session Name", VStr "Services")];
         VDict [("Image Name", VStr "svchost.exe"); ("PID", VStr "812")]]).
Proof.
  assert (Hp : persist_ok sample_host (6 + ncalls initial_world) "system")
    by (repeat split).
  split; [exact Hp|].
  destruct (tabular_parse_first_forty_rows sample_host initial_world Hp)
    as (s & w' & H & Hs).
  vm_compute in Hs.
  exists s, w'. split; [exact H|].
  exact (proj1 Hs).
Defined.

(** C5 as stated fails: a listing with a header and 41 data rows gives a
    sample of 40 mappings. *)
Lemma tabular_parse_drops_rows_after_forty :
  exists header data s sample,
    Csv.reader_list (PyStr.splitlines long_listing) = Some (header :: data) /\
    List.length data = 41%nat /\
    fst (collect_system long_listing_host initial_world) = Ok s /\
    dict_get s "process_sample" = Some (VList sample) /\
    List.length sample = 40%nat.
Proof.
  do 4 eexists.
  split; [vm_compute; reflexivity|].
  split; [reflexivity|].
  split; [vm_compute; reflexivity|].
  split; reflexivity.
Qed.

(** The error branch is taken: a field of 131073 characters makes the
    CSV reader raise, and the summary carries the marker. *)
Example oversized_field_is_csv_error :
  Csv.reader_list (PyStr.splitlines oversized_listing) = None.
Proof. vm_compute. reflexivity. Qed.

Example oversized_field_marks_parse_error :
  exists s w',
    collect_system oversized_host initial_world = (Ok s, w') /\
    dict_get s "process_sample_parse_error" = Some (VStr "CSV error") /\
    dict_get s "process_sample" = None.
Proof.
  assert (Hp : persist_ok oversized_host (6 + ncalls initial_world) "system")
    by (repeat split).
  destruct (collect_system_returns oversized_host initial_world Hp)
    as (stamp & elapsed & w' & H).
  eexists _, w'. split; [exact H|].
  unfold system_summary.
  change (out (run_result oversized_host "tasklist /V /FO CSV" 30
                 (1 + ncalls initial_world)))
    with oversized_listing.
  rewrite oversized_field_is_csv_error. split; reflexivity.
Qed.

(* ================================================================== *)
(** ** The firmware collector *)

(** When its artifacts can be written and a stale side file can be
    removed, the firmware collector returns; its summary is
    [firmware_summary] and it leaves the summary and the transcript of
    [firmware_raw_blocks] behind. *)
Lemma collect_firmware_returns (host : Host) (w : World) :
  persist_ok host (5 + ncalls w) "firmware" ->
  (path_exists host (3 + ncalls w) (dx_out host) = true ->
   os_remove host (3 + ncalls w) (dx_out host) = None) ->
  exists stamp elapsed w',
    collect_firmware host w
    = (Ok (firmware_summary host (ncalls w) stamp elapsed), w') /\
    written w'
    = (written w ++
       domain_artifacts host "firmware"
         (firmware_summary host (ncalls w) stamp elapsed)
         (firmware_raw_blocks host (ncalls w)))%list.
Proof.
  intros Hp Hrm. unfold collect_firmware.
  repeat step.
  rewrite bind_remove_if by (autorewrite with ncalls; exact Hrm).
  repeat step.
  rewrite bind_write by (autorewrite with ncalls; exact Hp).
  step.
  eexists _, _, _; split; [reflexivity|].
  unfold ret. cbn [snd]. autorewrite with written.
  rewrite write_summary_and_raw_written by (autorewrite with ncalls; exact Hp).
  autorewrite with written.
  unfold firmware_raw_blocks, dx_out, transcript, push. reflexivity.
Qed.

(** C8 fails on the code.  The vendor diagnostic command is told to
    write [dxdiag_output.txt], a name relative to the working directory
    of the run, while the collector looks for the side file in the
    program's own directory [ROOT].  On a run started from another
    directory the command prints nothing and writes its side file, yet
    the block recorded for it is not the side file's contents but the
    fallback: the empty output, the line [ERR:] and the empty error
    text. *)
Lemma firmware_side_file_outside_root_is_ignored :
  let host := working_directory_host in
  let side_file := side_file_in host "/home/lab" in
  out (run_result host "dxdiag /t dxdiag_output.txt" 30 3) = "" /\
  path_exists host 3 side_file = false /\
  path_exists host 4 side_file = true /\
  file_read host 4 side_file = Some "System Information: LAB-PC" /\
  exists s w' blocks,
    collect_firmware host initial_world = (Ok s, w') /\
    written w' = domain_artifacts host "firmware" s blocks /\
    nth_error blocks 3
    = Some ("### dxdiag" ++ PyStr.nl ++ "" ++ PyStr.nl ++ "ERR:" ++ PyStr.nl ++ "") /\
    nth_error blocks 3
    <> Some ("### dxdiag" ++ PyStr.nl ++ "System Information: LAB-PC").
Proof.
  cbv zeta. split; [reflexivity|]. split; [reflexivity|].
  split; [reflexivity|]. split; [reflexivity|].
  assert (Hp : persist_ok working_directory_host (5 + ncalls initial_world)
                          "firmware") by (repeat split).
  assert (Hrm : path_exists working_directory_host (3 + ncalls initial_world)
                  (dx_out working_directory_host) = true ->
                os_remove working_directory_host (3 + ncalls initial_world)
                  (dx_out working_directory_host) = None)
    by (intros _; reflexivity).
  destruct (collect_firmware_returns working_directory_host initial_world Hp Hrm)
    as (stamp & elapsed & w' & H & Hw).
  eexists _, w', _. split; [exact H|]. split; [exact Hw|].
  split; [reflexivity|]. vm_compute. discriminate.
Qed.

(** Whatever the machine answers, the fields the firmware summary lifts
    are those of the event query's output. *)
Lemma firmware_fields_come_from_event_query (host : Host) (w : World) :
  persist_ok host (5 + ncalls w) "firmware" ->
  (path_exists host (3 + ncalls w) (dx_out host) = true ->
   os_remove host (3 + ncalls w) (dx_out host) = None) ->
  exists s w',
    collect_firmware host w = (Ok s, w') /\
    forall key,
      In key firmware_keys ->
      dict_get s key
      = dict_get (parse_wmic
                    (out (run_result host microcode_query 30 (4 + ncalls w))))
                 key.
Proof.
  intros Hp Hrm.
  destruct (collect_firmware_returns host w Hp Hrm)
    as (stamp & elapsed & w' & H & _).
  eexists _, w'. split; [exact H|].
  intros key Hkey. unfold firmware_summary.
  assert (Hne : "elapsed_seconds" <> key).
  { intros <-. cbn in Hkey. intuition discriminate. }
  rewrite (dict_get_set_other _ _ _ _ Hne), lifted_fields.
  cbn in Hkey.
  destruct Hkey as [<-|[<-|[<-|[<-|[<-|[]]]]]]; cbn;
    match goal with
    | |- match ?o with _ => _ end = _ => destruct o; reflexivity
    end.
Qed.

(** C3 fails on the code.  The BIOS attribute dump names the
    manufacturer, but the firmware summary has no such key: the fields
    are looked up in the parse of the last command's output, the event
    query, and that output has no [key=value] line. *)
Lemma firmware_summary_misses_bios_fields :
  exists s,
    fst (collect_firmware sample_host initial_world) = Ok s /\
    dict_get (parse_wmic
                (out (run_result sample_host "wmic bios get /format:list" 15 0)))
             "Manufacturer"
    = Some (VStr "Dell Inc.") /\
    dict_get s "Manufacturer" = None /\
    parse_wmic (out (run_result sample_host microcode_query 30 4)) = [].
Proof.
  eexists. split; [vm_compute; reflexivity|].
  repeat split.
Qed.

(* ================================================================== *)
(** ** The peripherals collector *)

Lemma collect_peripherals_returns (host : Host) (w : World) :
  persist_ok host (5 + ncalls w) "peripherals" ->
  exists stamp elapsed w',
    collect_peripherals host w
    = (Ok (peripherals_summary host (ncalls w) stamp elapsed), w').
Proof.
  intros Hp. unfold collect_peripherals.
  repeat step.
  rewrite bind_write by (autorewrite with ncalls; exact Hp).
  step.
  eexists _, _, _. reflexivity.
Qed.

(** Whatever the machine answers, the summary records the length of the
    USB listing and 0 for the plug-and-play and network adapter
    listings. *)
Lemma peripherals_listing_lengths_are_zero (host : Host) (w : World) :
  persist_ok host (5 + ncalls w) "peripherals" ->
  exists s w',
    collect_peripherals host w = (Ok s, w') /\
    dict_get s "usb_entries_length"
    = Some (py_len (out (run_result host usb_query 40 (ncalls w)))) /\
    dict_get s "pnp_entries_length" = Some (VInt 0) /\
    dict_get s "netadapter_entries_length" = Some (VInt 0).
Proof.
  intros Hp.
  destruct (collect_peripherals_returns host w Hp) as (stamp & elapsed & w' & H).
  eexists _, w'. split; [exact H|]. repeat split.
Qed.

(** C4 fails on the code.  The plug-and-play listing prints 30
    characters and the network adapter listing 16, yet the summary
    records 0 for both: after the loop its variables hold the logical
    device command, whose name contains neither "pnp" nor "netadapter".
    Only [usb_entries_length] is the length of its own command's
    output. *)
Lemma peripherals_lengths_not_recorded :
  exists s pnp net,
    fst (collect_peripherals sample_host initial_world) = Ok s /\
    dict_get COMMANDS "get_pnp_device" = Some pnp /\
    dict_get COMMANDS "get_netadapter" = Some net /\
    String.length (out (run_result sample_host usb_query 40 0)) = 28%nat /\
    String.length (out (run_result sample_host pnp 40 1)) = 30%nat /\
    String.length (out (run_result sample_host net 30 2)) = 16%nat /\
    dict_get s "usb_entries_length" = Some (VInt 28) /\
    dict_get s "pnp_entries_length" = Some (VInt 0) /\
    dict_get s "netadapter_entries_length" = Some (VInt 0).
Proof.
  eexists _, _, _.
  split; [vm_compute; reflexivity|].
  split; [vm_compute; reflexivity|].
  split; [vm_compute; reflexivity|].
  repeat split.
Qed.

(* ================================================================== *)
(** ** The storage collector *)

(** C1 fails on the code.  With the disk-health tool installed and a
    device scan whose output ends with an empty line, the storage
    collector raises [IndexError] instead of returning a summary: the
    first word of the line is taken before the test that skips empty
    device names. *)
Lemma storage_blank_scan_line_raises :
  PyStr.splitlines
    (out (run_result blank_scan_host "smartctl --scan" 20 3))
  = ["/dev/sda -d scsi # /dev/sda, SCSI device"; ""] /\
  fst (collect_storage blank_scan_host initial_world)
  = Raise (IndexError "list index out of range").
Proof. split; vm_compute; reflexivity. Qed.

(* ================================================================== *)
(** ** Orchestration *)

Lemma collect_system_timed (host : Host) : yields timed (collect_system host).
Proof. unfold collect_system. through. Qed.

Lemma collect_hardware_timed (host : Host) :
  yields timed (collect_hardware host).
Proof. unfold collect_hardware. through. Qed.

Lemma collect_firmware_timed (host : Host) :
  yields timed (collect_firmware host).
Proof. unfold collect_firmware. through. Qed.

Lemma collect_storage_timed (host : Host) : yields timed (collect_storage host).
Proof. unfold collect_storage. through. Qed.

Lemma collect_peripherals_timed (host : Host) :
  yields timed (collect_peripherals host).
Proof. unfold collect_peripherals. through. Qed.

(** The orchestration boundary: a collector that raises is replaced by
    the error placeholder, and the call itself never raises. *)
Lemma run_module_with_spinner_total (name : string) (fn : M dict)
  (status_map : list (string * bool)) (w : World) :
  yields timed fn ->
  exists res st' w',
    run_module_with_spinner name fn status_map w = (Ok (res, st'), w') /\
    entry_ok res.
Proof.
  intros Hfn. specialize (Hfn w).
  unfold run_module_with_spinner, try_except, bind.
  destruct (fn w) as [[res|e] w1]; simpl in Hfn |- *.
  - eexists _, _, _. split; [reflexivity|]. left. exact Hfn.
  - eexists _, _, _. split; [reflexivity|]. right. reflexivity.
Qed.

Lemma sum_elapsed_eq (host : Host) (summary_map : dict) (w : World)
  (e1 e2 e3 e4 e5 : dict) (total : pyval) :
  dict_get summary_map "system" = Some (VDict e1) ->
  dict_get summary_map "hardware" = Some (VDict e2) ->
  dict_get summary_map "firmware" = Some (VDict e3) ->
  dict_get summary_map "storage" = Some (VDict e4) ->
  dict_get summary_map "peripherals" = Some (VDict e5) ->
  py_sum (map elapsed_or_zero [e1; e2; e3; e4; e5]) = Added total ->
  sum_elapsed host summary_map w = (Ok total, w).
Proof.
  intros H1 H2 H3 H4 H5 Hsum.
  unfold sum_elapsed, modules. cbn [for_each].
  unfold bind, entry_or_empty. rewrite H1, H2, H3, H4, H5.
  unfold py_sum in Hsum. cbn [map fold_left py_sum_step] in Hsum.
  cbn [ret fst snd].
  destruct (py_add (VInt 0) (elapsed_or_zero e1)) as [a1| |];
    try (cbn in Hsum; discriminate Hsum).
  cbn [ret py_sum_step] in Hsum |- *.
  destruct (py_add a1 (elapsed_or_zero e2)) as [a2| |];
    try (cbn in Hsum; discriminate Hsum).
  cbn [ret py_sum_step] in Hsum |- *.
  destruct (py_add a2 (elapsed_or_zero e3)) as [a3| |];
    try (cbn in Hsum; discriminate Hsum).
  cbn [ret py_sum_step] in Hsum |- *.
  destruct (py_add a3 (elapsed_or_zero e4)) as [a4| |];
    try (cbn in Hsum; discriminate Hsum).
  cbn [ret py_sum_step] in Hsum |- *.
  rewrite Hsum. reflexivity.
Qed.

(** One turn of the loop of [main]. *)
Ltac module_step Htimed :=
  repeat rewrite bind_assoc_at;
  lazymatch goal with
  | |- context [bind (run_module_with_spinner ?n ?fn ?st) ?f ?w] =>
      let res := fresh "res" in
      let st' := fresh "st" in
      let w' := fresh "w" in
      let Heq := fresh "Heq" in
      let Hok := fresh "Hok" in
      destruct (run_module_with_spinner_total n fn st w Htimed)
        as (res & st' & w' & Heq & Hok);
      rewrite (bind_eq _ f w w' _ Heq); clear Heq
  end;
  cbv beta iota zeta;
  repeat lazymatch goal with
    | |- context [bind (ret ?a) ?f ?w] => change (bind (ret a) f w) with (f a w)
    end;
  cbv beta iota zeta.

(** C2. When the run's directories can be created and the aggregate
    report can be written, [main] completes and the report it writes
    holds an entry for each of the five domains and a
    [total_elapsed_seconds].  Each entry either has a float under the
    key [elapsed_seconds] or has no such key (the error placeholder of
    a collector that raised).  The total is what Python's [sum] gives
    for the five fields taken in domain order, a missing field being
    the integer 0; spelled out, it is [claimed_total]: the floats added
    from 0, one binary64 addition after the other, so the integer 0
    when every field is missing and otherwise a float to which a
    missing field adds 0.0. *)
Theorem aggregate_total_is_sum_of_domains (host : Host) (w : World) :
  dirs_ok host (ncalls w) ->
  (forall k, file_write host k (result_file host) = None) ->
  exists w' report total e1 e2 e3 e4 e5,
    main host w = (Ok tt, w') /\
    In (result_file host, JsonDoc (VDict report)) (written w') /\
    dict_get report "system" = Some (VDict e1) /\
    dict_get report "hardware" = Some (VDict e2) /\
    dict_get report "firmware" = Some (VDict e3) /\
    dict_get report "storage" = Some (VDict e4) /\
    dict_get report "peripherals" = Some (VDict e5) /\
    dict_get report "total_elapsed_seconds" = Some total /\
    Forall (fun entry =>
              (exists x, dict_get entry "elapsed_seconds" = Some (VFloat x)) \/
              dict_get entry "elapsed_seconds" = None)
           [e1; e2; e3; e4; e5] /\
    py_sum (map (fun entry =>
                   match dict_get entry "elapsed_seconds" with
                   | Some elapsed => elapsed
                   | None => VInt 0
                   end) [e1; e2; e3; e4; e5])
    = Added total /\
    total
    = claimed_total None
        (map (fun entry =>
                match dict_get entry "elapsed_seconds" with
                | Some (VFloat x) => Some x
                | _ => None
                end) [e1; e2; e3; e4; e5]).
Proof.
  intros Hdirs Hres. unfold main.
  rewrite (bind_eq _ _ _ _ _ (ensure_dirs_ok host w Hdirs)).
  rewrite (bind_step _ _ _ _ (now_local_iso_fst host _)).
  rewrite (bind_step _ _ _ _ (now_local_logname_fst host _)).
  cbv beta iota zeta.
  step. rewrite bind_warn_if. step.
  unfold modules. cbn [for_each map].
  match goal with
  | |- context [VStr (utc_stamp ?c)] => generalize (utc_stamp c); intros stamp
  end.
  match goal with
  | |- context [bind _ _ ?W] => generalize W; intros w0
  end.
  generalize (local_iso (clock host (nclock w))); intros started.
  generalize (local_logname (clock host (nclock (snd (now_local_iso host w)))));
    intros logname.
  module_step (collect_system_timed host).
  module_step (collect_hardware_timed host).
  module_step (collect_firmware_timed host).
  module_step (collect_storage_timed host).
  module_step (collect_peripherals_timed host).
  step.
  match goal with
  | |- context [sum_elapsed host ?d] => set (summary_map := d)
  end.
  assert (Hall : Forall entry_ok [res; res0; res1; res2; res3])
    by (repeat (apply Forall_cons; [assumption|]); apply Forall_nil).
  pose proof (py_sum_total [res; res0; res1; res2; res3] Hall) as Hsum.
  set (total := claimed_total None
                  (map elapsed_time [res; res0; res1; res2; res3])) in *.
  rewrite (bind_eq _ _ _ _ _
             (sum_elapsed_eq host summary_map w5 res res0 res1 res2 res3 total
                eq_refl eq_refl eq_refl eq_refl eq_refl Hsum)).
  unfold aggregate_results. rewrite bind_assoc_at.
  destruct (write_call_ok host (result_file host)
              (JsonDoc (VDict (dict_set summary_map "total_elapsed_seconds" total)))
              w5 (Hres _)) as [Hw Hwritten].
  rewrite (bind_step _ _ _ _ Hw).
  step.
  match goal with
  | |- context [bind (dump_to_file host ?p) ?f ?W] =>
      destruct (dump_to_file_total host p W) as (b & Hb & Hkeep);
      rewrite (bind_step _ f W _ Hb)
  end.
  eexists _, (dict_set summary_map "total_elapsed_seconds" total), total,
          res, res0, res1, res2, res3.
  split; [reflexivity|]. split.
  { apply Hkeep. rewrite logger_info_written, Hwritten.
    unfold push. apply in_or_app. right. left. reflexivity. }
  do 5 (split; [reflexivity|]).
  split; [apply dict_get_set_same|].
  split; [exact Hall|].
  split; [exact Hsum|reflexivity].
Qed.

Lemma aggregate_total_is_sum_of_domains_witness :
  dirs_ok blank_scan_host 0 /\
  (forall k, file_write blank_scan_host k (result_file blank_scan_host) = None) /\
  exists w' report total e1 e2 e3 e5,
    main blank_scan_host initial_world = (Ok tt, w') /\
    In (result_file blank_scan_host, JsonDoc (VDict report)) (written w') /\
    dict_get report "system" = Some (VDict e1) /\
    dict_get report "hardware" = Some (VDict e2) /\
    dict_get report "firmware" = Some (VDict e3) /\
    dict_get report "storage"
    = Some (VDict [("error", VStr "list index out of range")]) /\
    dict_get report "peripherals" = Some (VDict e5) /\
    dict_get report "total_elapsed_seconds" = Some total /\
    map elapsed_time [e1; e2; e3; e5]
    = [Some (nearest_float 2);
       Some (PrimFloat.div (nearest_float 3) (nearest_float 2));
       Some (PrimFloat.div (nearest_float 7) (nearest_float 4));
       Some (PrimFloat.div (nearest_float 7) (nearest_float 4))] /\
    total = VFloat (nearest_float 7).
Proof.
  assert (Hd : dirs_ok blank_scan_host (ncalls initial_world))
    by (repeat constructor).
  assert (Hw : forall k,
             file_write blank_scan_host k (result_file blank_scan_host) = None)
    by (intros k; reflexivity).
  split; [exact Hd|]. split; [exact Hw|].
  destruct (aggregate_total_is_sum_of_domains blank_scan_host initial_world Hd Hw)
    as (w' & report & total & e1 & e2 & e3 & e4 & e5 &
        H & Hin & H1 & H2 & H3 & H4 & H5 & Ht & _ & _ & Htotal).
  assert (Hrun : exists wf rf,
             main blank_scan_host initial_world = (Ok tt, wf) /\
             nth_error (written wf) 8
             = Some (result_file blank_scan_host, JsonDoc (VDict rf)) /\
             (forall x, In x (written wf) ->
                        fst x = result_file blank_scan_host ->
                        x = (result_file blank_scan_host, JsonDoc (VDict rf))) /\
             exists f1 f2 f3 f5,
               dict_get rf "system" = Some (VDict f1) /\
               dict_get rf "hardware" = Some (VDict f2) /\
               dict_get rf "firmware" = Some (VDict f3) /\
               dict_get rf "storage"
               = Some (VDict [("error", VStr "list index out of range")]) /\
               dict_get rf "peripherals" = Some (VDict f5) /\
               map elapsed_time [f1; f2; f3; f5]
               = [Some (nearest_float 2);
                  Some (PrimFloat.div (nearest_float 3) (nearest_float 2));
                  Some (PrimFloat.div (nearest_float 7) (nearest_float 4));
                  Some (PrimFloat.div (nearest_float 7) (nearest_float 4))]).
  { eexists _, _. split; [vm_compute; reflexivity|].
    split; [reflexivity|]. split.
    - intros x Hx Hfst. cbn in Hx.
      repeat (destruct Hx as [<-|Hx]; [first [reflexivity | discriminate Hfst]|]).
      destruct Hx.
    - eexists _, _, _, _. repeat split; vm_compute; reflexivity. }
  destruct Hrun as (wf & rf & Hmain & _ & Huniq & f1 & f2 & f3 & f5 &
                    G1 & G2 & G3 & G4 & G5 & Gtimes).
  rewrite H in Hmain. injection Hmain as <-.
  assert (Hrf : report = rf).
  { specialize (Huniq _ Hin eq_refl). injection Huniq as ->. reflexivity. }
  subst rf.
  rewrite G1 in H1. injection H1 as <-.
  rewrite G2 in H2. injection H2 as <-.
  rewrite G3 in H3. injection H3 as <-.
  rewrite G4 in H4. injection H4 as <-.
  rewrite G5 in H5. injection H5 as <-.
  exists w', report, total, f1, f2, f3, f5.
  repeat (split; [assumption|]).
  rewrite Htotal.
  cbn [map] in Gtimes |- *. injection Gtimes as T1 T2 T3 T5.
  unfold elapsed_time in T1, T2, T3, T5.
  destruct (dict_get f1 "elapsed_seconds") as [[| | |x1| | |]|]; try discriminate T1.
  destruct (dict_get f2 "elapsed_seconds") as [[| | |x2| | |]|]; try discriminate T2.
  destruct (dict_get f3 "elapsed_seconds") as [[| | |x3| | |]|]; try discriminate T3.
  destruct (dict_get f5 "elapsed_seconds") as [[| | |x5| | |]|]; try discriminate T5.
  injection T1 as ->. injection T2 as ->. injection T3 as ->. injection T5 as ->.
  vm_compute. reflexivity.
Defined.

(** The run on the machine whose device scan ends with an empty line:
    the storage entry is the error placeholder and counts as 0 in the
    total. *)
Example blank_scan_report :
  exists w' report,
    main blank_scan_host initial_world = (Ok tt, w') /\
    nth_error (written w') 8
    = Some (result_file blank_scan_host, JsonDoc (VDict report)) /\
    dict_get report "storage"
    = Some (VDict [("error", VStr "list index out of range")]) /\
    map (fun m => elapsed_time (domain_entry report m)) domain_names
    = [Some (nearest_float 2);
       Some (PrimFloat.div (nearest_float 3) (nearest_float 2));
       Some (PrimFloat.div (nearest_float 7) (nearest_float 4));
       None;
       Some (PrimFloat.div (nearest_float 7) (nearest_float 4))] /\
    dict_get report "total_elapsed_seconds" = Some (VFloat (nearest_float 7)).
Proof.
  eexists _, _. split; [vm_compute; reflexivity|].
  split; [reflexivity|].
  split; [reflexivity|].
  split; vm_compute; reflexivity.
Qed.

(** C9 fails on the code.  Only the log flush answers a write failure
    with [False].  A domain's artifacts and the aggregate report are
    written without a handler: when the system summary cannot be
    written [collect_system] raises, and when the aggregate report
    cannot be written [main] itself ends with the exception, before the
    run log is flushed. *)
Lemma persistence_failures_raise :
  fst (dump_to_file readonly_log_host
         "/opt/jettox/logs/run_2025-01-01_000000.txt" initial_world)
  = Ok false /\
  fst (collect_system readonly_system_host initial_world)
  = Raise (OSError
      "[Errno 13] Permission denied: '/opt/jettox/system/summary.json'") /\
  fst (main readonly_result_host initial_world)
  = Raise (OSError
      "[Errno 13] Permission denied: '/opt/jettox/result/results_of_all_files.json'") /\
  existsb (String.eqb "/opt/jettox/logs/run_2025-01-01_000000.txt")
          (map fst (written (snd (main readonly_result_host initial_world))))
  = false.
Proof. repeat split; vm_compute; reflexivity. Qed.

(* ================================================================== *)
(** ** The parsers, line by line *)

Lemma startswith_drop (p s : string) :
  PyStr.startswith p s = true -> s = p ++ PyStr.drop (String.length p) s.
Proof.
  revert s. induction p as [|a p IH]; intros s H.
  - reflexivity.
  - destruct s as [|b s]; simpl in H; [discriminate|].
    apply andb_true_iff in H. destruct H as [Hab Hps].
    apply Ascii.eqb_eq in Hab. subst b. simpl. f_equal. apply IH. exact Hps.
Qed.

Lemma partition_app (sep s a b : string) :
  PyStr.partition sep s = Some (a, b) -> s = a ++ sep ++ b.
Proof.
  revert a b. induction s as [|c s IH]; intros a b H; cbn [PyStr.partition] in H.
  - destruct (PyStr.startswith sep "") eqn:E; [|discriminate].
    injection H as <- <-. simpl. apply (startswith_drop sep "" E).
  - destruct (PyStr.startswith sep (String c s)) eqn:E.
    + injection H as <- <-. simpl. apply (startswith_drop _ _ E).
    + destruct (PyStr.partition sep s) as [[a' b']|]; [|discriminate].
      injection H as <- <-. simpl. f_equal. apply IH. reflexivity.
Qed.

Lemma partition_contains (sep s a b : string) :
  PyStr.partition sep s = Some (a, b) -> PyStr.contains sep s = true.
Proof.
  intros H. rewrite (partition_app _ _ _ _ H). apply contains_app.
Qed.

Lemma partition_none (sep s : string) :
  PyStr.contains sep s = false -> PyStr.partition sep s = None.
Proof.
  induction s as [|c s IH]; cbn [PyStr.contains PyStr.partition]; intros H.
  - rewrite orb_false_r in H. rewrite H. reflexivity.
  - apply orb_false_iff in H. destruct H as [H1 H2]. rewrite H1, (IH H2).
    reflexivity.
Qed.

(** A one-character separator is found at its first occurrence. *)
Lemma partition_char (c : ascii) (k v : string) :
  PyStr.contains (String c "") k = false ->
  PyStr.partition (String c "") (k ++ String c v) = Some (k, v).
Proof.
  induction k as [|a k IH]; intros H.
  - cbn. rewrite Ascii.eqb_refl. reflexivity.
  - cbn [PyStr.contains] in H. apply orb_false_iff in H. destruct H as [H1 H2].
    cbn [append PyStr.partition].
    assert (E : PyStr.startswith (String c "") (String a (k ++ String c v))
                = false).
    { cbn in H1 |- *. destruct (Ascii.eqb c a); [discriminate H1|reflexivity]. }
    rewrite E, (IH H2). reflexivity.
Qed.

Lemma lstrip_head (s : string) :
  PyStr.lstrip s = "" \/
  exists c r, PyStr.lstrip s = String c r /\ PyStr.is_space c = false.
Proof.
  induction s as [|c s IH]; [left; reflexivity|].
  cbn [PyStr.lstrip]. destruct (PyStr.is_space c) eqn:E; [exact IH|].
  right. exists c, s. split; [reflexivity|exact E].
Qed.

Lemma rstrip_cons (c : ascii) (s : string) :
  PyStr.is_space c = false ->
  PyStr.rstrip (String c s) = String c (PyStr.rstrip s).
Proof.
  intros H. cbn [PyStr.rstrip]. rewrite H, andb_false_r. reflexivity.
Qed.

Lemma rstrip_idem (s : string) :
  PyStr.rstrip (PyStr.rstrip s) = PyStr.rstrip s.
Proof.
  induction s as [|c s IH]; [reflexivity|].
  cbn [PyStr.rstrip].
  destruct (PyStr.is_empty (PyStr.rstrip s) && PyStr.is_space c) eqn:E;
    [reflexivity|].
  cbn [PyStr.rstrip]. rewrite IH, E. reflexivity.
Qed.

(** [s.strip().strip() == s.strip()] *)
Lemma strip_idem (s : string) : PyStr.strip (PyStr.strip s) = PyStr.strip s.
Proof.
  unfold PyStr.strip.
  destruct (lstrip_head s) as [E|(c & r & E & Hc)]; rewrite E.
  - reflexivity.
  - rewrite (rstrip_cons c r Hc). cbn [PyStr.lstrip]. rewrite Hc.
    rewrite <- (rstrip_cons c r Hc). apply rstrip_idem.
Qed.

Lemma dict_set_keys_NoDup {V} (d : list (string * V)) (k : string) (v : V) :
  NoDup (map fst d) -> NoDup (map fst (dict_set d k v)).
Proof.
  induction d as [|[k' v'] d IH]; intros H.
  - cbn. constructor; [intros []|constructor].
  - cbn [dict_set]. inversion H as [|? ? Hnotin Hrest]; subst.
    destruct (String.eqb k' k) eqn:E.
    + cbn. constructor; assumption.
    + cbn [map fst]. constructor; [|apply IH; exact Hrest].
      intros Hin. apply in_map_iff in Hin. destruct Hin as ([k2 v2] & Hk & Hin).
      cbn in Hk. subst k2.
      assert (Hcases : In (k', v2) d \/ k' = k).
      { clear -Hin. induction d as [|[a b] d IHd]; cbn in Hin.
        - destruct Hin as [Hin|[]]. injection Hin as -> _. right. reflexivity.
        - destruct (String.eqb a k) eqn:Ea.
          + destruct Hin as [Hin|Hin].
            * injection Hin as -> _. apply String.eqb_eq in Ea. right.
              exact Ea.
            * left. right. exact Hin.
          + destruct Hin as [Hin|Hin].
            * left. left. injection Hin as -> ->. reflexivity.
            * destruct (IHd Hin) as [H|H]; [left; right; exact H|right; exact H]. }
      destruct Hcases as [Hold|Hk].
      * apply Hnotin. apply in_map_iff. exists (k', v2). split; [reflexivity|exact Hold].
      * subst k'. rewrite String.eqb_refl in E. discriminate E.
Qed.

Lemma dict_set_Forall {V} (P : string * V -> Prop) (d : list (string * V))
  (k : string) (v : V) :
  Forall P d -> P (k, v) -> Forall P (dict_set d k v).
Proof.
  intros Hd Hkv. induction d as [|[k' v'] d IH].
  - cbn. constructor; [exact Hkv|constructor].
  - cbn [dict_set]. inversion Hd as [|? ? Hhead Hrest]; subst.
    destruct (String.eqb k' k) eqn:E.
    + apply String.eqb_eq in E. subst k'. constructor; assumption.
    + constructor; [exact Hhead|apply IH; exact Hrest].
Qed.

Lemma dict_get_fresh {V} (d : list (string * V)) (k : string) :
  dict_get d k = None <-> ~ In k (map fst d).
Proof.
  induction d as [|[k' v'] d IH]; cbn.
  - split; [intros _ []|reflexivity].
  - destruct (String.eqb k' k) eqn:E.
    + apply String.eqb_eq in E. split; [discriminate|].
      intros H. exfalso. apply H. left. exact E.
    + apply String.eqb_neq in E. rewrite IH. split.
      * intros H [Hk|Hin]; [exact (E Hk)|exact (H Hin)].
      * intros H Hin. apply H. right. exact Hin.
Qed.

(** What [parse_wmic] and the [systeminfo] comprehension share: lines
    with the separator [c] set [key.strip()] to [value.strip()], split
    at the first [c]; the other lines are skipped. *)
Section SeparatedLines.

Variable c : ascii.
Variable f : dict -> string -> dict.
Hypothesis f_eq : forall d line,
  f d line
  = if PyStr.contains (String c "") line then
      match PyStr.split1 (String c "") line with
      | [k; v] => dict_set d (PyStr.strip k) (VStr (PyStr.strip v))
      | _ => d
      end
    else d.

Lemma line_cases (d : dict) (line : string) :
  (exists k v, PyStr.split1 (String c "") line = [k; v] /\
               f d line = dict_set d (PyStr.strip k) (VStr (PyStr.strip v))) \/
  ((forall k v, PyStr.split1 (String c "") line <> [k; v]) /\ f d line = d).
Proof.
  rewrite f_eq. unfold PyStr.split1.
  destruct (PyStr.partition (String c "") line) as [[k v]|] eqn:E.
  - left. exists k, v. rewrite (partition_contains _ _ _ _ E).
    split; reflexivity.
  - right. split; [intros k v; discriminate|].
    destruct (PyStr.contains (String c "") line); reflexivity.
Qed.

Lemma line_first_separator (d : dict) (k v : string) :
  PyStr.contains (String c "") k = false ->
  f d (k ++ String c "" ++ v) = dict_set d (PyStr.strip k) (VStr (PyStr.strip v)).
Proof.
  intros H. rewrite f_eq. unfold PyStr.split1. cbn [append].
  rewrite (partition_char c k v H).
  rewrite (partition_contains _ _ _ _ (partition_char c k v H)).
  reflexivity.
Qed.

Lemma lines_invariant (ls : list string) (d : dict) :
  NoDup (map fst d) -> Forall stripped_entry d ->
  NoDup (map fst (fold_left f ls d)) /\
  Forall stripped_entry (fold_left f ls d).
Proof.
  revert d. induction ls as [|l ls IH]; intros d Hn Hs; [split; assumption|].
  cbn [fold_left].
  destruct (line_cases d l) as [(k & v & _ & ->)|[_ ->]].
  - apply IH.
    + apply dict_set_keys_NoDup. exact Hn.
    + apply dict_set_Forall; [exact Hs|].
      split; [apply strip_idem|].
      eexists. split; [reflexivity|apply strip_idem].
  - apply IH; assumption.
Qed.

Lemma lines_missing (ls : list string) (d : dict) (key : string) :
  Forall (fun l => forall k v,
            PyStr.split1 (String c "") l = [k; v] -> PyStr.strip k <> key) ls ->
  dict_get (fold_left f ls d) key = dict_get d key.
Proof.
  revert d. induction ls as [|l ls IH]; intros d H; [reflexivity|].
  inversion H as [|? ? Hl Hls]; subst. cbn [fold_left].
  rewrite (IH _ Hls).
  destruct (line_cases d l) as [(k & v & E & ->)|[_ ->]]; [|reflexivity].
  apply dict_get_set_other. apply (Hl k v E).
Qed.

Lemma lines_last_wins (pre post : list string) (line k v : string) (d : dict) :
  PyStr.split1 (String c "") line = [k; v] ->
  Forall (fun l => forall k' v',
            PyStr.split1 (String c "") l = [k'; v'] ->
            PyStr.strip k' <> PyStr.strip k) post ->
  dict_get (fold_left f (pre ++ line :: post) d) (PyStr.strip k)
  = Some (VStr (PyStr.strip v)).
Proof.
  intros E Hpost. rewrite fold_left_app. cbn [fold_left].
  rewrite (lines_missing post _ _ Hpost).
  destruct (line_cases (fold_left f pre d) line) as [(k1 & v1 & E1 & ->)|[Hno _]].
  - rewrite E in E1. injection E1 as <- <-. apply dict_get_set_same.
  - exfalso. exact (Hno k v E).
Qed.

End SeparatedLines.

Lemma parse_wmic_line_eq (d : dict) (line : string) :
  parse_wmic_line d line
  = if PyStr.contains "=" line then
      match PyStr.split1 "=" line with
      | [k; v] => dict_set d (PyStr.strip k) (VStr (PyStr.strip v))
      | _ => d
      end
    else d.
Proof. reflexivity. Qed.

Lemma systeminfo_line_eq (d : dict) (line : string) :
  systeminfo_line d line
  = if PyStr.contains ":" line then
      match PyStr.split1 ":" line with
      | [k; v] => dict_set d (PyStr.strip k) (VStr (PyStr.strip v))
      | _ => d
      end
    else d.
Proof. reflexivity. Qed.










(* ================================================================== *)
(** ** The runner's trace and the run's directories *)


Ltac try_dir host w d :=
  let E := fresh "E" in
  let msg := fresh "msg" in
  destruct (os_makedirs host (ncalls w) (path_join host (ROOT host) d))
    as [msg|] eqn:E;
  [right; exists d, msg; cbn [In];
   split; [tauto|split; [exact E|reflexivity]]
  |cbv beta iota].

(** The directories are asked for one after the other; the first that
    cannot be created ends [ensure_dirs] with its error. *)
Lemma ensure_dirs_cases (host : Host) (w : World) :
  (dirs_ok host (ncalls w) /\ ensure_dirs host w = (Ok tt, w)) \/
  (exists d msg,
     In d run_dirs /\
     os_makedirs host (ncalls w) (path_join host (ROOT host) d) = Some msg /\
     ensure_dirs host w = (Raise (OSError msg), w)).
Proof.
  unfold ensure_dirs, RESULT_DIR, LOGS_DIR, run_dirs, FOLDERS.
  cbn [for_each app]. unfold bind, makedirs_call, ret.
  try_dir host w "firmware". try_dir host w "hardware".
  try_dir host w "peripherals". try_dir host w "storage".
  try_dir host w "system". try_dir host w "result". try_dir host w "logs".
  left. split; [|reflexivity].
  unfold dirs_ok, FOLDERS. cbn [app]. repeat constructor; assumption.
Qed.




(* ================================================================== *)
(** ** The hardware collector *)

(** One more statement form for [step]: an index into a list literal. *)
Ltac xstep :=
  first
    [ step
    | lazymatch goal with
      | |- context [bind (list_index ?xs ?i) ?f ?w] =>
          let v := eval vm_compute in (nth_error xs i) in
          match v with
          | Some ?x => change (bind (list_index xs i) f w) with (f x w)
          end
      | |- context [bind (which_call ?h ?n) ?f ?w] =>
          change (bind (which_call h n) f w)
            with (f (shutil_which h (ncalls w) n) w)
      end; cbv beta iota zeta; autorewrite with ncalls ].

Lemma hardware_try_steps (ps : Psutil) (summary : dict) (w : World) :
  try_steps
    [ (fun summary =>
         n <- psutil_call (fun k => cpu_count ps k true) ;;
         ret (dict_set summary "logical_cpus" (int_or_none n)));
      (fun summary =>
         n <- psutil_call (fun k => cpu_count ps k false) ;;
         ret (dict_set summary "physical_cpus" (int_or_none n)));
      (fun summary =>
         cf <- psutil_call (cpu_freq ps) ;;
         ret match cf with
             | Some cf => dict_set summary "cpu_freq_mhz" (cpu_freq_value cf)
             | None => summary
             end);
      (fun summary =>
         vm <- psutil_call (virtual_memory ps) ;;
         let summary :=
           dict_set summary "memory_total_bytes" (VInt (vm_total vm)) in
         ret (dict_set summary "memory_available_bytes"
                       (VInt (vm_available vm)))) ]
    (fun summary => ret (dict_set summary "psutil_error" (VStr "Error")))
    summary w
  = (Ok (hardware_metrics ps (ncalls w) summary), w).
Proof.
  unfold hardware_metrics. cbn [try_steps]. unfold bind, psutil_call, ret.
  destruct (cpu_count ps (ncalls w) true); [|reflexivity].
  destruct (cpu_count ps (ncalls w) false); [|reflexivity].
  destruct (cpu_freq ps (ncalls w)); [|reflexivity].
  destruct (virtual_memory ps (ncalls w)); reflexivity.
Qed.

Lemma write_summary_and_raw_ncalls (host : Host) (folder : string)
  (summary : dict) (raw_blocks : list string) (w : World) :
  ncalls (snd (write_summary_and_raw host folder summary raw_blocks w))
  = ncalls w.
Proof.
  unfold write_summary_and_raw, bind, makedirs_call, write_call.
  destruct (os_makedirs host _ _); [reflexivity|].
  destruct (file_write host _ _); [reflexivity|]. cbn [ncalls].
  destruct (file_write host _ _); reflexivity.
Qed.

#[local] Hint Rewrite write_summary_and_raw_ncalls : ncalls.

(** [collect_hardware] returns whenever its two artifacts can be
    written: no answer of a command or of the metrics library makes it
    raise. *)
Lemma collect_hardware_returns (host : Host) (w : World) :
  persist_ok host (4 + ncalls w) "hardware" ->
  exists elapsed w',
    let summary :=
      hardware_summary host (ncalls w) (utc_stamp (clock host (S (nclock w))))
                       elapsed in
    collect_hardware host w = (Ok summary, w') /\
    ncalls w' = (4 + ncalls w)%nat /\
    written w'
    = (written w ++
       domain_artifacts host "hardware" summary
         (hardware_raw_blocks host (ncalls w)))%list.
Proof.
  intros Hp. unfold collect_hardware.
  repeat xstep.
  unfold hardware_summary, hardware_raw_blocks.
  destruct (psutil host) as [ps|].
  - rewrite bind_assoc_at.
    erewrite bind_step by (rewrite hardware_try_steps; reflexivity).
    rewrite hardware_try_steps. cbn [snd]. cbv beta iota zeta.
    repeat xstep.
    rewrite bind_write by (autorewrite with ncalls; exact Hp).
    xstep. unfold ret.
    eexists _, _. cbv zeta. split; [reflexivity|].
    split; [autorewrite with ncalls; reflexivity|].
    rewrite logger_info_written.
    rewrite write_summary_and_raw_written by (autorewrite with ncalls; exact Hp).
    autorewrite with written. reflexivity.
  - repeat xstep.
    rewrite bind_write by (autorewrite with ncalls; exact Hp).
    xstep. unfold ret.
    eexists _, _. cbv zeta. split; [reflexivity|].
    split; [autorewrite with ncalls; reflexivity|].
    rewrite logger_info_written.
    rewrite write_summary_and_raw_written by (autorewrite with ncalls; exact Hp).
    autorewrite with written. reflexivity.
Qed.

Lemma hardware_metrics_other (ps : Psutil) (k : nat) (summary : dict)
  (key : string) :
  ~ In key metric_keys ->
  dict_get (hardware_metrics ps k summary) key = dict_get summary key.
Proof.
  intros Hkey. unfold hardware_metrics.
  assert (Hset : forall (d : dict) k' v, In k' metric_keys ->
                   dict_get (dict_set d k' v) key = dict_get d key).
  { intros d k' v Hin. apply dict_get_set_other.
    intros <-. exact (Hkey Hin). }
  destruct (cpu_count ps k true); [|apply Hset; cbn; tauto].
  destruct (cpu_count ps k false);
    [|rewrite !Hset by (cbn; tauto); reflexivity].
  destruct (cpu_freq ps k) as [[cf|]|];
    try (rewrite !Hset by (cbn; tauto); reflexivity);
    destruct (virtual_memory ps k);
    rewrite !Hset by (cbn; tauto); reflexivity.
Qed.





(* ================================================================== *)
(** ** The storage collector *)

Lemma rev_append_str_nonempty (cur s : string) :
  PyStr.is_empty cur = false \/ PyStr.is_empty s = false ->
  PyStr.is_empty (PyStr.rev_append_str cur s) = false.
Proof.
  revert s. induction cur as [|c cur IH]; intros s H; cbn.
  - destruct H as [H|H]; [discriminate H|exact H].
  - apply IH. right. reflexivity.
Qed.

(** [str.split()] yields no empty word. *)
Lemma split_ws_from_nonempty (s cur : string) :
  Forall (fun word => PyStr.is_empty word = false) (PyStr.split_ws_from cur s).
Proof.
  revert cur. induction s as [|c s IH]; intros cur; cbn [PyStr.split_ws_from].
  - destruct (PyStr.is_empty cur) eqn:E; constructor; [|constructor].
    apply rev_append_str_nonempty. left. exact E.
  - destruct (PyStr.is_space c); [|apply IH].
    destruct (PyStr.is_empty cur) eqn:E; [apply IH|].
    constructor; [|apply IH].
    apply rev_append_str_nonempty. left. exact E.
Qed.

Lemma first_word_nonempty (line : string) :
  PyStr.split_ws line <> [] ->
  PyStr.split_ws line = first_word line :: tl (PyStr.split_ws line) /\
  PyStr.is_empty (first_word line) = false.
Proof.
  intros H. unfold first_word.
  pose proof (split_ws_from_nonempty line EmptyString) as Hall.
  fold (PyStr.split_ws line) in Hall.
  destruct (PyStr.split_ws line) as [|dev rest]; [contradiction|].
  split; [reflexivity|]. inversion Hall; assumption.
Qed.

Lemma scan_loop_returns (host : Host) (scan : list string) :
  Forall (fun line => PyStr.split_ws line <> []) scan ->
  forall r raw_blocks w,
  exists r' w',
    scan_loop host scan (r, raw_blocks) w
    = (Ok (r', (raw_blocks ++
                health_blocks host (ncalls w) (map first_word scan))%list), w') /\
    ncalls w' = (List.length scan + ncalls w)%nat /\
    written w' = written w.
Proof.
  induction 1 as [|line scan Hline _ IH]; intros r raw_blocks w.
  - exists r, w. cbn. rewrite app_nil_r. auto.
  - destruct (first_word_nonempty line Hline) as [Hsplit Hdev].
    unfold scan_loop. cbn [for_each map health_blocks].
    rewrite Hsplit.
    change (list_index (first_word line :: tl (PyStr.split_ws line)) 0)
      with (@ret string (first_word line)).
    rewrite bind_assoc_at. xstep. rewrite Hdev. cbn [negb].
    rewrite bind_assoc_at. xstep. xstep.
    match goal with
    | |- context [for_each scan ?body (?r1, ?raw1) ?w1] =>
        destruct (IH r1 raw1 w1) as (r' & w' & Heq & Hn & Hw)
    end.
    unfold scan_loop in Heq. exists r', w'.
    split; [|split].
    + rewrite Heq. unfold push. rewrite <- app_assoc.
      autorewrite with ncalls. reflexivity.
    + rewrite Hn. autorewrite with ncalls. cbn. lia.
    + rewrite Hw. autorewrite with written. reflexivity.
Qed.

Lemma scan_loop_raises (host : Host) (scan : list string) :
  Exists (fun line => PyStr.split_ws line = []) scan ->
  forall r raw_blocks w,
  exists w',
    scan_loop host scan (r, raw_blocks) w
    = (Raise (IndexError "list index out of range"), w') /\
    written w' = written w.
Proof.
  induction scan as [|line scan IH]; intros Hex r raw_blocks w.
  - inversion Hex.
  - unfold scan_loop. cbn [for_each].
    destruct (PyStr.split_ws line) as [|dev rest] eqn:Hsplit.
    + exists w. split; reflexivity.
    + assert (Hrest : Exists (fun line => PyStr.split_ws line = []) scan).
      { inversion Hex as [? ? Hhead|? ? Htail]; subst; [|exact Htail].
        rewrite Hsplit in Hhead. discriminate Hhead. }
      change (list_index (dev :: rest) 0) with (@ret string dev).
      rewrite bind_assoc_at. xstep.
      destruct (PyStr.is_empty dev); cbn [negb].
      * xstep. apply (IH Hrest).
      * rewrite bind_assoc_at. xstep. xstep.
        match goal with
        | |- context [for_each scan ?body (?r1, ?raw1) ?w1] =>
            destruct (IH Hrest r1 raw1 w1) as (w' & Heq & Hw)
        end.
        exists w'. split; [exact Heq|].
        rewrite Hw. autorewrite with written. reflexivity.
Qed.

Lemma usage_loop (ps : Psutil) (parts : list Partition) (sample : list pyval)
  (w : World) :
  for_each parts
    (fun p sample =>
       u <- psutil_call (fun k => disk_usage ps k (mountpoint p)) ;;
       ret (push sample (partition_entry p u)))
    sample w
  = match partition_entries ps (ncalls w) parts with
    | Some entries => (Ok (sample ++ entries)%list, w)
    | None => (Raise PsutilError, w)
    end.
Proof.
  revert sample. induction parts as [|p parts IH]; intros sample.
  - cbn. rewrite app_nil_r. reflexivity.
  - cbn [for_each partition_entries]. unfold bind at 1. unfold bind at 1.
    unfold psutil_call at 1.
    destruct (disk_usage ps (ncalls w) (mountpoint p)) as [u|]; [|reflexivity].
    cbn [ret]. rewrite IH.
    destruct (partition_entries ps (ncalls w) parts); [|reflexivity].
    unfold push. rewrite <- app_assoc. reflexivity.
Qed.

Lemma storage_try_steps (ps : Psutil) (summary : dict) (w : World) :
  try_steps
    [fun summary =>
       parts <- psutil_call (fun k => disk_partitions ps k true) ;;
       sample <-
         for_each parts
           (fun p sample =>
              u <- psutil_call (fun k => disk_usage ps k (mountpoint p)) ;;
              ret (push sample (partition_entry p u)))
           [] ;;
       ret (dict_set summary "partitions_sample" (VList sample))]
    (fun summary => ret (dict_set summary "partitions_error" (VStr "Error")))
    summary w
  = (Ok match partitions_sample ps (ncalls w) with
        | Some sample => dict_set summary "partitions_sample" (VList sample)
        | None => dict_set summary "partitions_error" (VStr "Error")
        end, w).
Proof.
  cbn [try_steps]. unfold partitions_sample.
  unfold bind at 1. unfold psutil_call at 1.
  destruct (disk_partitions ps (ncalls w) true) as [parts|]; [|reflexivity].
  unfold bind at 1. rewrite usage_loop.
  destruct (partition_entries ps (ncalls w) parts); reflexivity.
Qed.

(** The statements of [collect_storage] after the device scan; [norm]
    brings the command count to the form [Hp] has it in. *)
Ltac storage_finish norm Hp :=
  lazymatch goal with
  | |- context [psutil ?host] =>
      destruct (psutil host) as [?ps|];
      [ erewrite bind_step by (rewrite storage_try_steps; reflexivity);
        rewrite storage_try_steps; cbn [snd]; cbv beta iota zeta
      | ]
  end;
  repeat xstep;
  rewrite bind_write by (norm; exact Hp);
  xstep; unfold ret;
  eexists _, _; cbv zeta; (split; [norm; reflexivity|]);
  (split; [norm; reflexivity|]);
  rewrite logger_info_written;
  rewrite write_summary_and_raw_written by (norm; exact Hp).









(* ================================================================== *)
(** ** The transcripts of the system and peripherals collectors *)





(* ================================================================== *)
(** ** What every collector keeps *)

Lemma quiet_ret {A} (a : A) : quiet (ret a).
Proof. intros w. reflexivity. Qed.

Lemma quiet_raise {A} (e : exn) : quiet (@raise A e).
Proof. intros w. reflexivity. Qed.

Lemma quiet_bind {A B} (m : M A) (f : A -> M B) :
  quiet m -> (forall a, quiet (f a)) -> quiet (bind m f).
Proof.
  intros Hm Hf w. unfold bind. specialize (Hm w).
  destruct (m w) as [[a|e] w1]; cbn [snd] in Hm |- *; [|exact Hm].
  rewrite (Hf a w1). exact Hm.
Qed.

Lemma quiet_for_each {A S} (xs : list A) (body : A -> S -> M S) :
  (forall x s, quiet (body x s)) -> forall s, quiet (for_each xs body s).
Proof.
  intros Hb. induction xs as [|x xs IH]; intros s; cbn [for_each].
  - apply quiet_ret.
  - apply quiet_bind; [apply Hb|apply IH].
Qed.

Lemma quiet_try_steps (steps : list (dict -> M dict)) (handler : dict -> M dict) :
  Forall (fun step => forall d, quiet (step d)) steps ->
  (forall d, quiet (handler d)) ->
  forall d, quiet (try_steps steps handler d).
Proof.
  intros Hs Hh. induction Hs as [|step steps Hstep _ IH]; intros d;
    cbn [try_steps].
  - apply quiet_ret.
  - intros w. specialize (Hstep d w).
    destruct (step d w) as [[d'|e] w1]; cbn [snd] in Hstep.
    + rewrite (IH d' w1). exact Hstep.
    + rewrite (Hh d w1). exact Hstep.
Qed.

Lemma quiet_or_raise {A} (o : option A) (e : exn) : quiet (or_raise o e).
Proof. destruct o; [apply quiet_ret|apply quiet_raise]. Qed.

Section Quiet.

Variable host : Host.

Lemma quiet_perf_counter : quiet (perf_counter host).
Proof. intros w. reflexivity. Qed.

Lemma quiet_now_utc_stamp : quiet (now_utc_stamp host).
Proof. intros w. reflexivity. Qed.

Lemma quiet_logger_info (msg : string) : quiet (logger_info host msg).
Proof. intros w. reflexivity. Qed.

Lemma quiet_run (cmd : string) (timeout : Z) : quiet (run host cmd timeout).
Proof. intros w. apply run_written. Qed.

Lemma quiet_exists_call (path : string) : quiet (exists_call host path).
Proof. intros w. reflexivity. Qed.

Lemma quiet_which_call (name : string) : quiet (which_call host name).
Proof. intros w. reflexivity. Qed.

Lemma quiet_remove_call (path : string) : quiet (remove_call host path).
Proof.
  intros w. unfold remove_call. destruct (os_remove host _ path); reflexivity.
Qed.

Lemma quiet_psutil_call {A} (answer : nat -> option A) :
  quiet (psutil_call answer).
Proof.
  intros w. unfold psutil_call. destruct (answer (ncalls w)); reflexivity.
Qed.

Lemma quiet_safe_read_file (path : string) : quiet (safe_read_file host path).
Proof. intros w. rewrite safe_read_file_eq. reflexivity. Qed.

(** The last statements of a collector: write the two artifacts, log,
    return the summary. *)
Lemma persists_tail (folder : string) (summary : dict)
  (raw_blocks : list string) (msg : string) :
  persists host folder
    (write_summary_and_raw host folder summary raw_blocks ;;
     logger_info host msg ;;
     ret summary).
Proof.
  intros w. unfold write_summary_and_raw, bind, makedirs_call, write_call.
  destruct (os_makedirs host _ _); [left; reflexivity|].
  destruct (file_write host _ _); [left; reflexivity|]. cbn [ncalls].
  destruct (file_write host _ _).
  - right. exists summary. reflexivity.
  - cbn. exists raw_blocks. unfold push, domain_artifacts.
    rewrite <- app_assoc. reflexivity.
Qed.

Lemma persists_bind {A} (folder : string) (m : M A) (f : A -> M dict) :
  quiet m -> (forall a, persists host folder (f a)) ->
  persists host folder (bind m f).
Proof.
  intros Hm Hf w. unfold bind. pose proof (Hm w) as Hw.
  destruct (m w) as [[a|e] w1]; cbn [snd] in Hw.
  - specialize (Hf a w1). rewrite Hw in Hf. exact Hf.
  - left. exact Hw.
Qed.

End Quiet.

(** Every statement of a collector before the artifacts are written. *)
Ltac quiet_steps :=
  repeat first
    [ apply quiet_ret
    | apply quiet_or_raise
    | apply quiet_perf_counter
    | apply quiet_now_utc_stamp
    | apply quiet_logger_info
    | apply quiet_run
    | apply quiet_exists_call
    | apply quiet_which_call
    | apply quiet_remove_call
    | apply quiet_psutil_call
    | apply quiet_safe_read_file
    | apply quiet_bind; [|intro]
    | apply quiet_for_each; intros; cbv beta
    | apply quiet_try_steps;
      [repeat (apply Forall_cons; [intro|]); try apply Forall_nil|intro]
    | match goal with
      | |- quiet (match ?x with _ => _ end) => destruct x
      end ].

Ltac persists_steps :=
  cbv zeta;
  repeat first
    [ apply persists_tail
    | apply persists_bind; [quiet_steps|intro]
    | match goal with
      | |- persists _ _ (match ?x with _ => _ end) => destruct x
      end ].


(* ================================================================== *)
(** ** The aggregate report *)

Lemma run_module_with_spinner_eq (name : string) (fn : M dict)
  (status_map : list (string * bool)) (w : World) :
  run_module_with_spinner name fn status_map w
  = (Ok (outcome_entry (fst (fn w)),
         dict_set status_map name
           match fst (fn w) with Ok _ => true | Raise _ => false end),
     snd (fn w)).
Proof.
  unfold run_module_with_spinner, try_except, bind.
  destruct (fn w) as [[res|e] w1]; reflexivity.
Qed.

Lemma outcome_entry_ok (fn : M dict) (w : World) :
  yields timed fn -> entry_ok (outcome_entry (fst (fn w))).
Proof.
  intros H. specialize (H w).
  destruct (fst (fn w)); [left; exact H|right; reflexivity].
Qed.

(** One turn of the loop of [main], with the collector's outcome kept
    in sight. *)
Ltac module_turn :=
  repeat rewrite bind_assoc_at;
  lazymatch goal with
  | |- context [bind (run_module_with_spinner ?n ?fn ?st) ?f ?w] =>
      rewrite (bind_eq _ f w _ _ (run_module_with_spinner_eq n fn st w))
  end;
  cbv beta iota zeta;
  repeat lazymatch goal with
    | |- context [bind (ret ?a) ?f ?w] => change (bind (ret a) f w) with (f a w)
    end;
  cbv beta iota zeta.



(* ================================================================== *)
(** ** The log file *)

Lemma rev_append_str_app (l a b : string) :
  PyStr.rev_append_str (PyStr.rev_append_str l a) b
  = PyStr.rev_append_str a (l ++ b).
Proof.
  revert a. induction l as [|c l IH]; intros a; [reflexivity|].
  cbn [PyStr.rev_append_str append]. rewrite IH. reflexivity.
Qed.

Lemma append_empty_r (s : string) : s ++ "" = s.
Proof. induction s as [|c s IH]; [reflexivity|]. cbn. rewrite IH. reflexivity. Qed.

Lemma splitlines_from_line (l cur rest : string) :
  single_line l = true ->
  PyStr.splitlines_from cur (l ++ rest)
  = PyStr.splitlines_from (PyStr.rev_append_str l cur) rest.
Proof.
  revert cur. induction l as [|c l IH]; intros cur H; [reflexivity|].
  cbn [single_line] in H. apply andb_true_iff in H. destruct H as [Hc Hl].
  apply negb_true_iff in Hc.
  cbn [append PyStr.splitlines_from PyStr.rev_append_str]. rewrite Hc.
  apply IH. exact Hl.
Qed.

(** ["\n".join(lines).splitlines() == lines] for non-empty lines
    without a line boundary. *)
Lemma splitlines_join (ls : list string) :
  Forall (fun l => single_line l = true /\ l <> "") ls ->
  PyStr.splitlines (PyStr.join PyStr.nl ls) = ls.
Proof.
  induction 1 as [|x ls [Hx Hne] Hls IH]; [reflexivity|].
  unfold PyStr.splitlines in *. destruct ls as [|y ls].
  - cbn [PyStr.join]. rewrite <- (append_empty_r x) at 1.
    rewrite (splitlines_from_line x "" "" Hx).
    cbn [PyStr.splitlines_from].
    rewrite rev_append_str_nonempty.
    + rewrite rev_append_str_app. cbn [PyStr.rev_append_str].
      rewrite append_empty_r. reflexivity.
    + left. destruct x; [contradiction|reflexivity].
  - change (PyStr.join PyStr.nl (x :: y :: ls))
      with (x ++ String PyStr.LF (PyStr.join PyStr.nl (y :: ls))).
    rewrite (splitlines_from_line x "" _ Hx).
    cbn [PyStr.splitlines_from].
    change (PyStr.is_linebreak PyStr.LF) with true.
    change (Ascii.eqb PyStr.LF PyStr.CR) with false.
    cbv iota. rewrite IH.
    rewrite rev_append_str_app. cbn [PyStr.rev_append_str].
    rewrite append_empty_r. reflexivity.
Qed.



(* ================================================================== *)
(** ** The firmware collector and the side file *)






